(** * SafetySnap: the PPE compliance engine of [ppeAnalysisService.js]

    A shallow embedding of the decision logic of [PPEAnalysisService]
    ([analyzeCompliance], [generateRecommendations], [getPPERequirements])
    together with the JavaScript run-time behaviour these methods rely on:
    property lookup on object literals (which walks to [Object.prototype]),
    the insertion-ordered [Set], [Array.prototype.push] / [forEach] /
    [filter], [Math.round] and the comparison [confidence > 0.5].

    Numbers are exact rationals ([Q]).  Every finite IEEE double is a
    rational, so the comparison with [0.5] is modelled exactly; the score
    [(size / length) * 100] is computed exactly, which coincides with the
    double computation followed by [Math.round] for the category counts the
    constructor's catalog can produce (at most seven over five). *)

From Stdlib Require Import String Ascii List Bool ZArith QArith Qround Qminmax Lia.
From Stdlib Require Import Permutation Sorted Lqa.
Import ListNotations.

Open Scope string_scope.
Open Scope list_scope.

(* ================================================================== *)
(** ** JavaScript run-time pieces used by the service *)

Module Js.

(** The result of reading a property [o[k]] of an object literal [o]:
    an own property, a member inherited from [Object.prototype] (a function,
    or the prototype object itself for [__proto__]), or [undefined]. *)
Inductive prop (A : Type) : Type :=
| Own (a : A)
| Inherited (name : string)
| Undefined.
Arguments Own {A} a.
Arguments Inherited {A} name.
Arguments Undefined {A}.

(** The property names every object literal inherits from
    [Object.prototype]. *)
Definition objectPrototype : list string :=
  [ "constructor"; "__defineGetter__"; "__defineSetter__"; "hasOwnProperty";
    "__lookupGetter__"; "__lookupSetter__"; "isPrototypeOf";
    "propertyIsEnumerable"; "toString"; "valueOf"; "__proto__";
    "toLocaleString" ].

Fixpoint mem (k : string) (l : list string) : bool :=
  match l with
  | [] => false
  | x :: l' => if String.eqb x k then true else mem k l'
  end.

Fixpoint getOwn {A} (o : list (string * A)) (k : string) : option A :=
  match o with
  | [] => None
  | (k', a) :: o' => if String.eqb k' k then Some a else getOwn o' k
  end.

(** [o[k]]: own properties first, then the prototype chain. *)
Definition get {A} (o : list (string * A)) (k : string) : prop A :=
  match getOwn o k with
  | Some a => Own a
  | None => if mem k objectPrototype then Inherited k else Undefined
  end.

(** A property key: [o[undefined]] reads the property named "undefined". *)
Definition toKey (k : option string) : string :=
  match k with
  | Some s => s
  | None => "undefined"
  end.

(** Truthiness of a property holding an object or array: objects, arrays
    and functions are truthy, [undefined] is falsy. *)
Definition truthy {A} (p : prop A) : bool :=
  match p with
  | Own _ | Inherited _ => true
  | Undefined => false
  end.

(** [a || b]. *)
Definition or {A} (a b : prop A) : prop A :=
  if truthy a then a else b.

(** [p.f] for a field [f] of the catalog's entries: inherited members have
    no such field, so the read yields [undefined] ([None]). *)
Definition field {A B} (f : A -> B) (p : prop A) : option B :=
  match p with
  | Own a => Some (f a)
  | Inherited _ | Undefined => None
  end.

(** [x > y] where [x] may be [undefined]: [undefined > y] is [false]. *)
Definition gt (x : option Q) (y : Q) : bool :=
  match x with
  | Some c => negb (Qle_bool c y)
  | None => false
  end.

(** [Math.round]: the nearest integer, ties towards +infinity. *)
Definition Math_round (x : Q) : Z := Qfloor (x + (1 # 2)).

(** [a === b] on possibly-undefined strings compared with a literal. *)
Definition strictEq (a : option string) (b : string) : bool :=
  match a with
  | Some s => String.eqb s b
  | None => false
  end.

(** *** [Set]: insertion-ordered, without duplicates *)
Section SetOps.
Context {A : Type} (eqb : A -> A -> bool).

Fixpoint has (s : list A) (x : A) : bool :=
  match s with
  | [] => false
  | y :: s' => if eqb y x then true else has s' x
  end.

Definition add (s : list A) (x : A) : list A :=
  if has s x then s else s ++ [x].

Definition size (s : list A) : nat := length s.
End SetOps.

(** *** Exceptions *)
Inductive exn : Type :=
| TypeError (msg : string).

Inductive outcome (A : Type) : Type :=
| Returned (a : A)
| Threw (e : exn).
Arguments Returned {A} a.
Arguments Threw {A} e.

Definition bind {A B} (m : outcome A) (k : A -> outcome B) : outcome B :=
  match m with
  | Returned a => k a
  | Threw e => Threw e
  end.

(** [xs.forEach(f)] threading the closure's captured variables [st]; an
    exception thrown by the callback leaves the loop. *)
Fixpoint forEach {X S} (f : S -> X -> outcome S) (xs : list X) (st : S)
  : outcome S :=
  match xs with
  | [] => Returned st
  | x :: xs' => bind (f st x) (forEach f xs')
  end.

(** [s.replace(pat, by)] with a one-character string pattern: only the
    first occurrence is replaced. *)
Fixpoint replaceChar (pat by_ : ascii) (s : string) : string :=
  match s with
  | EmptyString => EmptyString
  | String c s' =>
      if Ascii.eqb c pat then String by_ s' else String c (replaceChar pat by_ s')
  end.

End Js.

Notation "x <- m ;; k" := (Js.bind m (fun x => k))
  (at level 61, m at next level, right associativity).

(** Equality on values that may be [undefined]. *)
Definition optStrEqb (a b : option string) : bool :=
  match a, b with
  | Some x, Some y => String.eqb x y
  | None, None => true
  | _, _ => false
  end.

(* ================================================================== *)
(** ** Data *)

(** An entry of [this.ppeItems]. *)
Module PPEItem.
Record t : Type := mk
  { required : bool;
    category : string;
    aliases : list string }.
End PPEItem.

(** A raw detection, as produced by [simulatePPEDetection].  A field that
    is absent reads as [undefined] ([None]). *)
Module Detection.
Record t : Type := mk
  { class : option string;
    confidence : option Q;
    bbox : list Z;
    category : option string }.
End Detection.

(** An element pushed on [detectedItems]. *)
Module DetectedItem.
Record t : Type := mk
  { item : option string;
    category : option string;
    confidence : option Q;
    bbox : list Z }.
End DetectedItem.

(** The object returned by [analyzeCompliance]. *)
Module Compliance.
Record t : Type := mk
  { personDetected : bool;
    complianceScore : Z;
    isCompliant : bool;
    detectedCategories : list (option string);
    missingCategories : list string;
    detectedItems : list DetectedItem.t;
    totalRequired : nat;
    totalDetected : nat }.
End Compliance.

(** An element of the array returned by [generateRecommendations]. *)
Module Recommendation.
Record t : Type := mk
  { type : string;
    message : string;
    priority : string }.
End Recommendation.

(** The instance fields of [PPEAnalysisService]. *)
Record PPEAnalysisService : Type := mkService
  { ppeItems : list (string * PPEItem.t);
    requiredCategories : list string }.

(** [constructor()]. *)
Definition constructor : PPEAnalysisService :=
  {| ppeItems :=
       [ ("person", PPEItem.mk true "person" []);
         ("helmet", PPEItem.mk true "head_protection" ["hard hat"; "safety helmet"]);
         ("hard hat", PPEItem.mk true "head_protection" ["helmet"; "safety helmet"]);
         ("safety helmet", PPEItem.mk true "head_protection" ["helmet"; "hard hat"]);
         ("safety vest", PPEItem.mk true "visibility" ["reflective vest"; "hi-vis vest"]);
         ("reflective vest", PPEItem.mk true "visibility" ["safety vest"; "hi-vis vest"]);
         ("hi-vis vest", PPEItem.mk true "visibility" ["safety vest"; "reflective vest"]);
         ("safety glasses", PPEItem.mk true "eye_protection" ["protective eyewear"; "goggles"]);
         ("goggles", PPEItem.mk true "eye_protection" ["safety glasses"; "protective eyewear"]);
         ("protective eyewear", PPEItem.mk true "eye_protection" ["safety glasses"; "goggles"]);
         ("gloves", PPEItem.mk true "hand_protection" ["safety gloves"; "work gloves"]);
         ("safety gloves", PPEItem.mk true "hand_protection" ["gloves"; "work gloves"]);
         ("work gloves", PPEItem.mk true "hand_protection" ["gloves"; "safety gloves"]);
         ("boots", PPEItem.mk true "foot_protection" ["safety boots"; "work boots"]);
         ("safety boots", PPEItem.mk true "foot_protection" ["boots"; "work boots"]);
         ("work boots", PPEItem.mk true "foot_protection" ["boots"; "safety boots"]) ];
     requiredCategories :=
       [ "head_protection"; "visibility"; "eye_protection"; "hand_protection";
         "foot_protection" ] |}.

(** The fixed detections of [simulatePPEDetection], before the random
    jitter is added to the confidences. *)
Definition mockDetections : list Detection.t :=
  [ Detection.mk (Some "person") (Some (95 # 100)) [100; 50; 200; 400]%Z (Some "person");
    Detection.mk (Some "helmet") (Some (88 # 100)) [120; 60; 80; 60]%Z (Some "head_protection");
    Detection.mk (Some "safety vest") (Some (92 # 100)) [110; 120; 180; 120]%Z (Some "visibility");
    Detection.mk (Some "gloves") (Some (75 # 100)) [80; 350; 60; 40]%Z (Some "hand_protection");
    Detection.mk (Some "safety glasses") (Some (82 # 100)) [140; 100; 60; 20]%Z (Some "eye_protection");
    Detection.mk (Some "boots") (Some (78 # 100)) [130; 420; 80; 60]%Z (Some "foot_protection") ].

(* ================================================================== *)
(** ** [analyzeCompliance] *)

(** The three variables captured by the [forEach] callback. *)
Record Locals : Type := mkLocals
  { detectedCategories : list (option string);
    detectedItems : list DetectedItem.t;
    personDetected : bool }.

Definition initial : Locals :=
  {| detectedCategories := []; detectedItems := []; personDetected := false |}.

(** The body of the callback for a detection object. *)
Definition processDetection (this : PPEAnalysisService) (st : Locals)
  (detection : Detection.t) : Locals :=
  let personDetected :=
    if Js.strictEq (Detection.class detection) "person" then true
    else personDetected st in
  let item := Js.get (ppeItems this) (Js.toKey (Detection.class detection)) in
  if Js.truthy item && Js.gt (Detection.confidence detection) (1 # 2) then
    {| detectedCategories :=
         Js.add optStrEqb (detectedCategories st) (Js.field PPEItem.category item);
       detectedItems :=
         detectedItems st ++
           [ {| DetectedItem.item := Detection.class detection;
                DetectedItem.category := Js.field PPEItem.category item;
                DetectedItem.confidence := Detection.confidence detection;
                DetectedItem.bbox := Detection.bbox detection |} ];
       personDetected := personDetected |}
  else
    {| detectedCategories := detectedCategories st;
       detectedItems := detectedItems st;
       personDetected := personDetected |}.

(** The callback on an array element: reading [detection.class] of [null]
    or [undefined] ([None]) throws a [TypeError]. *)
Definition callback (this : PPEAnalysisService) (st : Locals)
  (detection : option Detection.t) : Js.outcome Locals :=
  match detection with
  | Some d => Js.Returned (processDetection this st d)
  | None => Js.Threw (Js.TypeError "Cannot read properties of undefined (reading 'class')")
  end.

(** The part of [analyzeCompliance] after the loop. *)
Definition checkCompliance (this : PPEAnalysisService) (st : Locals)
  : Compliance.t :=
  let missingCategories :=
    filter (fun category => negb (Js.has optStrEqb (detectedCategories st) (Some category)))
           (requiredCategories this) in
  let complianceScore : Q :=
    if (0 <? length (requiredCategories this))%nat
    then (inject_Z (Z.of_nat (Js.size (detectedCategories st)))
          / inject_Z (Z.of_nat (length (requiredCategories this)))) * 100
    else 0 in
  let isCompliant :=
    (length missingCategories =? 0)%nat && personDetected st in
  {| Compliance.personDetected := personDetected st;
     Compliance.complianceScore := Js.Math_round complianceScore;
     Compliance.isCompliant := isCompliant;
     Compliance.detectedCategories := detectedCategories st;
     Compliance.missingCategories := missingCategories;
     Compliance.detectedItems := detectedItems st;
     Compliance.totalRequired := length (requiredCategories this);
     Compliance.totalDetected := Js.size (detectedCategories st) |}.

Definition analyzeCompliance (this : PPEAnalysisService)
  (detections : list (option Detection.t)) : Js.outcome Compliance.t :=
  st <- Js.forEach (callback this) detections initial ;;
  Js.Returned (checkCompliance this st).

(* ================================================================== *)
(** ** [generateRecommendations] *)

(** [xs.push(x)]. *)
Definition push {A} (xs : list A) (x : A) : list A := xs ++ [x].

Section Recommendations.

(** The text [Function.prototype.toString] (or [Object.prototype.toString]
    for [__proto__]) yields for the member of [Object.prototype] with the
    given name; it is left to the engine. *)
Variable nativeSource : string -> string.

Definition categoryMessages : list (string * string) :=
  [ ("head_protection", "Wear a safety helmet or hard hat");
    ("visibility", "Wear a high-visibility safety vest");
    ("eye_protection", "Wear safety glasses or protective eyewear");
    ("hand_protection", "Wear safety gloves");
    ("foot_protection", "Wear safety boots or work boots") ].

(** A property value interpolated in a template literal. *)
Definition interpolate (p : Js.prop string) : string :=
  match p with
  | Js.Own s => s
  | Js.Inherited name => nativeSource name
  | Js.Undefined => "undefined"
  end.

Definition noPersonRecommendation : Recommendation.t :=
  {| Recommendation.type := "error";
     Recommendation.message :=
       "No person detected in the image. Please ensure the image contains a person for PPE analysis.";
     Recommendation.priority := "high" |}.

Definition missingRecommendation (category : string) : Recommendation.t :=
  {| Recommendation.type := "warning";
     Recommendation.message :=
       ("Missing " ++ Js.replaceChar "_" " " category ++ ": "
          ++ interpolate (Js.get categoryMessages category))%string;
     Recommendation.priority := "high" |}.

Definition successRecommendation : Recommendation.t :=
  {| Recommendation.type := "success";
     Recommendation.message :=
       "Great! All required PPE items are detected and properly worn.";
     Recommendation.priority := "low" |}.

Definition generalRecommendation : Recommendation.t :=
  {| Recommendation.type := "info";
     Recommendation.message :=
       "Always ensure PPE is properly fitted and in good condition before starting work.";
     Recommendation.priority := "medium" |}.

Definition generateRecommendations (compliance : Compliance.t)
  : list Recommendation.t :=
  let recommendations : list Recommendation.t := [] in
  let recommendations :=
    if negb (Compliance.personDetected compliance)
    then push recommendations noPersonRecommendation
    else recommendations in
  let recommendations :=
    if (0 <? length (Compliance.missingCategories compliance))%nat
    then fold_left (fun recs category => push recs (missingRecommendation category))
                   (Compliance.missingCategories compliance) recommendations
    else recommendations in
  let recommendations :=
    if Compliance.isCompliant compliance
    then push recommendations successRecommendation
    else recommendations in
  push recommendations generalRecommendation.

End Recommendations.

(* ================================================================== *)
(** ** [getPPERequirements] *)

Definition requirements : list (string * list string) :=
  [ ("construction",
     ["head_protection"; "visibility"; "eye_protection"; "hand_protection"; "foot_protection"]);
    ("manufacturing",
     ["head_protection"; "eye_protection"; "hand_protection"; "foot_protection"]);
    ("laboratory", ["eye_protection"; "hand_protection"]);
    ("healthcare", ["hand_protection"; "eye_protection"]);
    ("general",
     ["head_protection"; "visibility"; "eye_protection"; "hand_protection"; "foot_protection"]) ].

(** [getPPERequirements(workEnvironment = 'construction')]: an absent
    argument ([None]) takes the default.  The value returned is whatever
    [requirements[workEnvironment] || requirements.general] evaluates to. *)
Definition getPPERequirements (workEnvironment : option string)
  : Js.prop (list string) :=
  let workEnvironment :=
    match workEnvironment with
    | Some name => name
    | None => "construction"
    end in
  Js.or (Js.get requirements workEnvironment) (Js.get requirements "general").

(* ================================================================== *)
(** ** [simulatePPEDetection] and [analyzeImage] *)

(** [Math.max(0.3, Math.min(0.99, confidence + (Math.random() - 0.5) * 0.2))]
    for the draw [u] of [Math.random()], computed exactly; the double
    computation differs from it by rounding errors far below the margins
    of the statements made about it. *)
Definition jitter (confidence u : Q) : Q :=
  Qmax (3 # 10) (Qmin (99 # 100) (confidence + (u - (1 # 2)) * (2 # 10))).

(** [detections.map(detection => ({...detection, confidence: ...}))]: the
    callback draws [Math.random()] once per element, in order; [random k]
    is the [k]-th draw and [n] the number of draws already made.  An absent
    confidence would give [NaN], which compares like [undefined]. *)
Fixpoint mapJitter (random : nat -> Q) (n : nat) (detections : list Detection.t)
  : list Detection.t :=
  match detections with
  | [] => []
  | detection :: rest =>
      {| Detection.class := Detection.class detection;
         Detection.confidence :=
           match Detection.confidence detection with
           | Some c => Some (jitter c (random n))
           | None => None
           end;
         Detection.bbox := Detection.bbox detection;
         Detection.category := Detection.category detection |}
      :: mapJitter random (S n) rest
  end.

(** What [sharp(imagePath).metadata()] resolves to, as far as it is read. *)
Module Metadata.
Record t : Type := mk
  { width : Z;
    height : Z;
    format : string }.
End Metadata.

(** [simulatePPEDetection(imagePath, metadata)]: neither argument is
    read. *)
Definition simulatePPEDetection (random : nat -> Q) (imagePath : string)
  (metadata : Metadata.t) : list Detection.t :=
  mapJitter random 0 mockDetections.

(** The world [analyzeImage] runs in: the file system, the image probe, the
    random generator and the clock.  A call that throws or rejects is
    [inl] of the error's message. *)
Record World : Type := mkWorld
  { existsSync : string -> bool;
    sharpMetadata : string -> string + Metadata.t;
    statSyncSize : string -> string + Z;
    random : nat -> Q;
    toISOString : string }.

Module ImageInfo.
Record t : Type := mk
  { width : Z;
    height : Z;
    format : string;
    size : Z }.
End ImageInfo.

Module Analysis.
Record t : Type := mk
  { imageInfo : ImageInfo.t;
    detections : list Detection.t;
    compliance : Compliance.t;
    recommendations : list Recommendation.t;
    timestamp : string }.
End Analysis.

(** The object [analyzeImage] resolves to: [{ success: true, analysis }] or
    [{ success: false, error }]. *)
Inductive AnalysisResult : Type :=
| Success (analysis : Analysis.t)
| Failure (error : string).

(** [analyzeImage(imagePath)]: every exception of the [try] block is caught
    and turned into a failure object carrying its message. *)
Definition analyzeImage (nativeSource : string -> string) (world : World)
  (this : PPEAnalysisService) (imagePath : string) : AnalysisResult :=
  if negb (existsSync world imagePath) then Failure "Image file not found"
  else
    match sharpMetadata world imagePath with
    | inl message => Failure message
    | inr metadata =>
        let detectionResults :=
          simulatePPEDetection (random world) imagePath metadata in
        match analyzeCompliance this (map Some detectionResults) with
        | Js.Threw (Js.TypeError message) => Failure message
        | Js.Returned complianceAnalysis =>
            let recommendations :=
              generateRecommendations nativeSource complianceAnalysis in
            match statSyncSize world imagePath with
            | inl message => Failure message
            | inr size =>
                Success
                  {| Analysis.imageInfo :=
                       {| ImageInfo.width := Metadata.width metadata;
                          ImageInfo.height := Metadata.height metadata;
                          ImageInfo.format := Metadata.format metadata;
                          ImageInfo.size := size |};
                     Analysis.detections := detectionResults;
                     Analysis.compliance := complianceAnalysis;
                     Analysis.recommendations := recommendations;
                     Analysis.timestamp := toISOString world |}
            end
        end
    end.

(* ================================================================== *)
(** ** The client's [utils] and the upload filter *)

(** The completion of a call that may [throw new Error(message)]. *)
Inductive completion (A : Type) : Type :=
| Normal (a : A)
| ThrowError (message : string).
Arguments Normal {A} a.
Arguments ThrowError {A} message.

(** [s.lastIndexOf(c)] for a one-character [c]: the index of the last
    occurrence, or -1. *)
Fixpoint lastIndexOf (c : ascii) (s : string) : Z :=
  match s with
  | EmptyString => (-1)%Z
  | String a s' =>
      let r := lastIndexOf c s' in
      if (0 <=? r)%Z then (r + 1)%Z
      else if Ascii.eqb a c then 0%Z else (-1)%Z
  end.

(** [x >>> 0]: [x] as an unsigned 32-bit integer. *)
Definition toUint32 (x : Z) : Z := (x mod 2 ^ 32)%Z.

(** The string without its first [n] characters (all of it when [n] is
    not positive). *)
Fixpoint drop (n : Z) (s : string) : string :=
  match s with
  | EmptyString => EmptyString
  | String _ s' => if (0 <? n)%Z then drop (n - 1) s' else s
  end.

(** [s.slice(start)]: a negative [start] counts from the end, and a start
    outside the string is clamped. *)
Definition slice (start : Z) (s : string) : string :=
  if (start <? 0)%Z
  then drop (Z.max (Z.of_nat (String.length s) + start) 0) s
  else drop start s.

(** [getFileExtension(filename)]:
    [filename.slice((filename.lastIndexOf('.') - 1 >>> 0) + 2)]. *)
Definition getFileExtension (filename : string) : string :=
  slice (toUint32 (lastIndexOf "." filename - 1) + 2) filename.

(** A browser [File], or the file object [multer] hands to its filter, as
    far as they are read. *)
Module File.
Record t : Type := mk
  { type : option string;
    size : Z }.
End File.

(** [xs.includes(x)] on an array of strings. *)
Definition includes (xs : list string) (x : option string) : bool :=
  existsb (fun y => Js.strictEq x y) xs.

(** [validateImageFile(file)]. *)
Definition validateImageFile (file : File.t) : completion bool :=
  let allowedTypes := ["image/jpeg"; "image/jpg"; "image/png"; "image/webp"] in
  let maxSize := (10 * 1024 * 1024)%Z in
  if negb (includes allowedTypes (File.type file))
  then ThrowError "Invalid file type. Please upload a JPEG, PNG, or WebP image."
  else if (maxSize <? File.size file)%Z
  then ThrowError "File too large. Please upload an image smaller than 10MB."
  else Normal true.

(** The upload route's [fileFilter(req, file, cb)]: the pair of arguments it
    passes to [cb], for a file of the given MIME type. *)
Definition fileFilter (mimetype : option string) : option string * bool :=
  let allowedTypes := ["image/jpeg"; "image/jpg"; "image/png"; "image/webp"] in
  if includes allowedTypes mimetype then (None, true)
  else (Some "Invalid file type. Only JPEG, PNG, and WebP images are allowed.", false).

(** An option of [getWorkEnvironments()]. *)
Module WorkEnvironment.
Record t : Type := mk
  { value : string;
    label : string;
    description : string }.
End WorkEnvironment.

Definition getWorkEnvironments : list WorkEnvironment.t :=
  [ WorkEnvironment.mk "construction" "Construction Site"
      "Hard hat, safety vest, boots, gloves, safety glasses required";
    WorkEnvironment.mk "manufacturing" "Manufacturing Plant"
      "Hard hat, safety glasses, gloves, boots required";
    WorkEnvironment.mk "laboratory" "Laboratory" "Safety glasses, gloves required";
    WorkEnvironment.mk "healthcare" "Healthcare" "Gloves, safety glasses required";
    WorkEnvironment.mk "general" "General Workplace" "Standard PPE requirements" ].

(** [colors[key] || '#6B7280']: the colour strings of both tables are
    non-empty, hence truthy. *)
Definition getCategoryColor (category : option string) : Js.prop string :=
  let colors :=
    [ ("head_protection", "#3B82F6");
      ("visibility", "#F59E0B");
      ("eye_protection", "#10B981");
      ("hand_protection", "#8B5CF6");
      ("foot_protection", "#EF4444");
      ("person", "#6B7280") ] in
  Js.or (Js.get colors (Js.toKey category)) (Js.Own "#6B7280").


(** [getComplianceColor(score)] and [getComplianceText(score)] of the
    upload component. *)
Definition getComplianceColor (score : Z) : string :=
  if (80 <=? score)%Z then "#10B981"
  else if (60 <=? score)%Z then "#F59E0B"
  else "#EF4444".

Definition getComplianceText (score : Z) : string :=
  if (80 <=? score)%Z then "Excellent"
  else if (60 <=? score)%Z then "Good"
  else "Needs Improvement".

(* ================================================================== *)
(** ** [cleanupOldFiles] of the upload route *)








(* ================================================================== *)
(** ** The loop of [analyzeCompliance] on detection objects *)

(** The guard of the callback's [if], the category it adds and the item it
    pushes, named for the statements below. *)
Definition catalogEntry (this : PPEAnalysisService) (d : Detection.t)
  : Js.prop PPEItem.t :=
  Js.get (ppeItems this) (Js.toKey (Detection.class d)).

Definition counted (this : PPEAnalysisService) (d : Detection.t) : bool :=
  Js.truthy (catalogEntry this d) && Js.gt (Detection.confidence d) (1 # 2).

Definition categoryOf (this : PPEAnalysisService) (d : Detection.t)
  : option string :=
  Js.field PPEItem.category (catalogEntry this d).

Definition toItem (this : PPEAnalysisService) (d : Detection.t)
  : DetectedItem.t :=
  {| DetectedItem.item := Detection.class d;
     DetectedItem.category := categoryOf this d;
     DetectedItem.confidence := Detection.confidence d;
     DetectedItem.bbox := Detection.bbox d |}.

Definition isPerson (d : Detection.t) : bool :=
  Js.strictEq (Detection.class d) "person".

Lemma processDetection_eq this st d :
  processDetection this st d =
  {| detectedCategories :=
       if counted this d
       then Js.add optStrEqb (detectedCategories st) (categoryOf this d)
       else detectedCategories st;
     detectedItems :=
       if counted this d then detectedItems st ++ [toItem this d]
       else detectedItems st;
     personDetected := isPerson d || personDetected st |}.
Proof.
  unfold processDetection, counted, categoryOf, toItem, catalogEntry, isPerson.
  destruct (Js.truthy _ && Js.gt _ _);
    destruct (Js.strictEq (Detection.class d) "person"); reflexivity.
Qed.

Lemma loop_items this ds : forall st,
  detectedItems (fold_left (processDetection this) ds st) =
  detectedItems st ++ map (toItem this) (filter (counted this) ds).
Proof.
  induction ds as [|d ds IH]; intros st; simpl.
  - now rewrite app_nil_r.
  - rewrite IH, processDetection_eq; simpl.
    destruct (counted this d); simpl; [now rewrite <- app_assoc|reflexivity].
Qed.

Lemma loop_categories this ds : forall st,
  detectedCategories (fold_left (processDetection this) ds st) =
  fold_left (Js.add optStrEqb)
            (map (categoryOf this) (filter (counted this) ds))
            (detectedCategories st).
Proof.
  induction ds as [|d ds IH]; intros st; simpl; [reflexivity|].
  rewrite IH, processDetection_eq; simpl.
  destruct (counted this d); reflexivity.
Qed.

Lemma loop_person this ds : forall st,
  personDetected (fold_left (processDetection this) ds st) =
  existsb isPerson ds || personDetected st.
Proof.
  induction ds as [|d ds IH]; intros st; simpl; [reflexivity|].
  rewrite IH, processDetection_eq; simpl.
  destruct (isPerson d), (existsb isPerson ds); simpl; reflexivity.
Qed.

(** On an array of detection objects the loop never throws. *)
Lemma forEach_objects this ds : forall st,
  Js.forEach (callback this) (map Some ds) st =
  Js.Returned (fold_left (processDetection this) ds st).
Proof.
  induction ds as [|d ds IH]; intros st; simpl; [reflexivity|apply IH].
Qed.

(** A [null] or [undefined] element makes the loop throw, whatever was
    processed before it. *)
Lemma forEach_nullish this es : forall st,
  In None es -> exists e, Js.forEach (callback this) es st = Js.Threw e.
Proof.
  induction es as [|x es IH]; intros st Hin; [destruct Hin|].
  destruct x as [d|]; simpl.
  - destruct Hin as [Heq|Hin]; [discriminate|]. apply IH, Hin.
  - eexists; reflexivity.
Qed.

Lemma analyzeCompliance_objects this ds :
  analyzeCompliance this (map Some ds) =
  Js.Returned
    (checkCompliance this (fold_left (processDetection this) ds initial)).
Proof.
  unfold analyzeCompliance. now rewrite forEach_objects.
Qed.

(* ================================================================== *)
(** ** Facts about the run-time pieces *)

Lemma gt_iff c y : Js.gt (Some c) y = true <-> (y < c)%Q.
Proof.
  unfold Js.gt. rewrite negb_true_iff, <- not_true_iff_false, Qle_bool_iff.
  split; [apply Qnot_le_lt|apply Qlt_not_le].
Qed.

Lemma gt_false_iff c y : Js.gt (Some c) y = false <-> (c <= y)%Q.
Proof.
  unfold Js.gt. rewrite negb_false_iff. apply Qle_bool_iff.
Qed.

Lemma optStrEqb_eq a b : optStrEqb a b = true <-> a = b.
Proof.
  destruct a as [x|], b as [y|]; simpl; try (split; congruence).
  rewrite String.eqb_eq. split; congruence.
Qed.

Lemma has_In s x : Js.has optStrEqb s x = true <-> In x s.
Proof.
  induction s as [|y s IH]; simpl; [split; [discriminate|tauto]|].
  destruct (optStrEqb y x) eqn:E.
  - apply optStrEqb_eq in E. tauto.
  - rewrite IH. split; [tauto|]. intros [H|H]; [|exact H].
    apply optStrEqb_eq in H. congruence.
Qed.

Lemma add_In s x y : In y (Js.add optStrEqb s x) <-> y = x \/ In y s.
Proof.
  unfold Js.add. destruct (Js.has optStrEqb s x) eqn:E.
  - apply has_In in E. split; [tauto|]. intros [->|H]; assumption.
  - rewrite in_app_iff; simpl. intuition congruence.
Qed.

Lemma fold_add_In l : forall s y,
  In y (fold_left (Js.add optStrEqb) l s) <-> In y l \/ In y s.
Proof.
  induction l as [|x l IH]; intros s y; simpl; [tauto|].
  rewrite IH, add_In. intuition congruence.
Qed.

Lemma push_fold {A B} (f : A -> B) xs : forall acc,
  fold_left (fun recs x => push recs (f x)) xs acc = acc ++ map f xs.
Proof.
  induction xs as [|x xs IH]; intros acc; simpl.
  - now rewrite app_nil_r.
  - rewrite IH. unfold push. now rewrite <- app_assoc.
Qed.

(* ================================================================== *)
(** ** Compliance verdict *)

(** C4: for every array of detection objects the call returns a report in
    which [isCompliant] holds exactly when a person was detected and no
    required category is missing; a report without a person is never
    compliant, and no person is detected when no detection is labelled
    "person". *)
Theorem compliant_iff_person_and_nothing_missing this ds :
  exists r,
    analyzeCompliance this (map Some ds) = Js.Returned r /\
    (Compliance.isCompliant r = true <->
       Compliance.personDetected r = true /\ Compliance.missingCategories r = []) /\
    (Compliance.personDetected r = false -> Compliance.isCompliant r = false) /\
    ((forall d, In d ds -> Detection.class d <> Some "person") ->
       Compliance.isCompliant r = false).
Proof.
  eexists. split; [apply analyzeCompliance_objects|].
  set (st := fold_left (processDetection this) ds initial).
  unfold checkCompliance; simpl.
  set (missing := filter _ (requiredCategories this)).
  assert (Hiff : (length missing =? 0)%nat && personDetected st = true <->
                 personDetected st = true /\ missing = []).
  { rewrite andb_true_iff, Nat.eqb_eq, length_zero_iff_nil. tauto. }
  split; [exact Hiff|]. split.
  - intros Hp. rewrite Hp. apply andb_false_r.
  - intros Hno. subst st. rewrite loop_person. simpl.
    replace (existsb isPerson ds) with false; [now rewrite andb_false_r|].
    symmetry. apply not_true_iff_false. intros H.
    apply existsb_exists in H as (d & Hin & Hd).
    unfold isPerson, Js.strictEq in Hd.
    destruct (Detection.class d) as [s|] eqn:E; [|discriminate].
    apply String.eqb_eq in Hd. subst s. exact (Hno d Hin E).
Qed.

(** C4, at the constructor's service with the five mock equipment
    detections and no person: nothing is missing, yet the report is not
    compliant. *)
Lemma compliant_iff_person_and_nothing_missing_witness :
  exists r,
    analyzeCompliance constructor (map Some (tl mockDetections)) = Js.Returned r /\
    Compliance.missingCategories r = [] /\
    Compliance.personDetected r = false /\
    Compliance.isCompliant r = false.
Proof.
  destruct (compliant_iff_person_and_nothing_missing constructor (tl mockDetections))
    as (r & Hr & _ & _ & Hno).
  exists r. split; [exact Hr|].
  assert (Hc : Compliance.isCompliant r = false).
  { apply Hno. simpl. intros d [<-|[<-|[<-|[<-|[<-|[]]]]]]; discriminate. }
  rewrite analyzeCompliance_objects in Hr. injection Hr as <-.
  split; [reflexivity|]. split; [reflexivity|exact Hc].
Defined.

(* ================================================================== *)
(** ** Recommendations *)

(** C9: the recommendation list is, in this order: the error/high
    no-person message exactly when no person was detected; one
    warning/high message per missing category, in the order of
    [missingCategories]; the success/low message exactly when the report is
    compliant; and always the info/medium reminder as last element. *)
Theorem recommendations_structure nativeSource compliance :
  generateRecommendations nativeSource compliance =
    (if Compliance.personDetected compliance then []
     else [noPersonRecommendation]) ++
    map (missingRecommendation nativeSource)
        (Compliance.missingCategories compliance) ++
    (if Compliance.isCompliant compliance then [successRecommendation]
     else []) ++
    [generalRecommendation]
  /\ (Recommendation.type noPersonRecommendation,
      Recommendation.priority noPersonRecommendation) = ("error", "high")
  /\ (forall category,
        (Recommendation.type (missingRecommendation nativeSource category),
         Recommendation.priority (missingRecommendation nativeSource category))
        = ("warning", "high"))
  /\ (Recommendation.type successRecommendation,
      Recommendation.priority successRecommendation) = ("success", "low")
  /\ (Recommendation.type generalRecommendation,
      Recommendation.priority generalRecommendation) = ("info", "medium").
Proof.
  split; [|repeat split].
  unfold generateRecommendations.
  assert (Hloop : forall acc,
    (if (0 <? length (Compliance.missingCategories compliance))%nat
     then fold_left
            (fun recs category => push recs (missingRecommendation nativeSource category))
            (Compliance.missingCategories compliance) acc
     else acc) =
    acc ++ map (missingRecommendation nativeSource)
               (Compliance.missingCategories compliance)).
  { intros acc. destruct (Compliance.missingCategories compliance) as [|m ms].
    - simpl. now rewrite app_nil_r.
    - cbn [length Nat.ltb Nat.leb]. apply push_fold. }
  rewrite Hloop. unfold push.
  destruct (Compliance.personDetected compliance),
           (Compliance.isCompliant compliance);
    simpl negb; cbv iota; rewrite <- ?app_assoc; reflexivity.
Qed.

(* ================================================================== *)
(** ** Person detection and the confidence threshold *)

Lemma filter_middle {A} (f : A -> bool) l1 x l2 :
  filter f (l1 ++ x :: l2) =
  filter f l1 ++ (if f x then [x] else []) ++ filter f l2.
Proof.
  rewrite filter_app. simpl. destruct (f x); reflexivity.
Qed.

Lemma filter_dropped {A} (f : A -> bool) l1 x l2 :
  f x = false -> filter f (l1 ++ x :: l2) = filter f (l1 ++ l2).
Proof.
  intros H. rewrite filter_middle, H, filter_app. reflexivity.
Qed.

(** C10: a detection labelled "person" makes [personDetected] true whatever
    its confidence; when that confidence is at most 0.5 the detection
    contributes no element to [detectedItems]. *)
Theorem person_detection_ignores_threshold this l1 d l2 :
  Detection.class d = Some "person" ->
  exists r r0,
    analyzeCompliance this (map Some (l1 ++ d :: l2)) = Js.Returned r /\
    analyzeCompliance this (map Some (l1 ++ l2)) = Js.Returned r0 /\
    Compliance.personDetected r = true /\
    (forall c, Detection.confidence d = Some c -> (c <= 1 # 2)%Q ->
       Compliance.detectedItems r = Compliance.detectedItems r0).
Proof.
  intros Hclass. do 2 eexists.
  split; [apply analyzeCompliance_objects|].
  split; [apply analyzeCompliance_objects|].
  unfold checkCompliance; simpl. split.
  - rewrite loop_person, existsb_app. simpl.
    unfold isPerson at 2. rewrite Hclass. simpl.
    now rewrite orb_true_r.
  - intros c Hc Hle. rewrite !loop_items. f_equal. f_equal.
    apply filter_dropped. unfold counted. rewrite Hc.
    apply gt_false_iff in Hle. rewrite Hle. apply andb_false_r.
Qed.

(** C10, at the constructor's service: a person at confidence 0.3 followed
    by a helmet at 0.88. *)
Lemma person_detection_ignores_threshold_witness :
  let person := Detection.mk (Some "person") (Some (3 # 10)) [100; 50; 200; 400]%Z None in
  let helmet := Detection.mk (Some "helmet") (Some (88 # 100)) [120; 60; 80; 60]%Z None in
  exists r,
    analyzeCompliance constructor [Some person; Some helmet] = Js.Returned r /\
    Compliance.personDetected r = true /\
    Compliance.detectedItems r =
      [DetectedItem.mk (Some "helmet") (Some "head_protection") (Some (88 # 100))
                       [120; 60; 80; 60]%Z].
Proof.
  intros person helmet.
  destruct (person_detection_ignores_threshold constructor [] person [helmet] eq_refl)
    as (r & r0 & Hr & Hr0 & Hp & Hitems).
  exists r. split; [exact Hr|]. split; [exact Hp|].
  rewrite (Hitems (3 # 10) eq_refl); [|discriminate].
  change (map Some ([] ++ [helmet])) with (map Some [helmet]) in Hr0.
  rewrite analyzeCompliance_objects in Hr0. injection Hr0 as <-. reflexivity.
Defined.

Lemma counted_known this d entry c :
  Js.get (ppeItems this) (Js.toKey (Detection.class d)) = Js.Own entry ->
  Detection.confidence d = Some c ->
  counted this d = Js.gt (Some c) (1 # 2)
  /\ categoryOf this d = Some (PPEItem.category entry).
Proof.
  intros Hget Hc. unfold counted, categoryOf, catalogEntry.
  rewrite Hget, Hc. split; reflexivity.
Qed.

(** C5: a detection whose label is a key of the catalog is counted exactly
    when its confidence is strictly greater than 0.5.  Above 0.5 its item
    stands in [detectedItems] between the items of the detections before
    and after it and its category is in [detectedCategories]; at 0.5 or
    below the report's items and categories are those of the input without
    it. *)
Theorem threshold_is_strict this l1 d l2 entry c :
  Js.get (ppeItems this) (Js.toKey (Detection.class d)) = Js.Own entry ->
  Detection.confidence d = Some c ->
  exists r r1 r2 r0,
    analyzeCompliance this (map Some (l1 ++ d :: l2)) = Js.Returned r /\
    analyzeCompliance this (map Some l1) = Js.Returned r1 /\
    analyzeCompliance this (map Some l2) = Js.Returned r2 /\
    analyzeCompliance this (map Some (l1 ++ l2)) = Js.Returned r0 /\
    ((1 # 2 < c)%Q <->
       length (Compliance.detectedItems r) = S (length (Compliance.detectedItems r0))) /\
    ((1 # 2 < c)%Q ->
       Compliance.detectedItems r =
         Compliance.detectedItems r1
         ++ [ {| DetectedItem.item := Detection.class d;
                 DetectedItem.category := Some (PPEItem.category entry);
                 DetectedItem.confidence := Some c;
                 DetectedItem.bbox := Detection.bbox d |} ]
         ++ Compliance.detectedItems r2
       /\ In (Some (PPEItem.category entry)) (Compliance.detectedCategories r)) /\
    ((c <= 1 # 2)%Q ->
       Compliance.detectedItems r = Compliance.detectedItems r0 /\
       Compliance.detectedCategories r = Compliance.detectedCategories r0).
Proof.
  intros Hget Hc.
  destruct (counted_known this d entry c Hget Hc) as [Hcnt Hcat].
  do 4 eexists.
  do 4 (split; [apply analyzeCompliance_objects|]).
  unfold checkCompliance; simpl.
  rewrite !loop_items, !loop_categories; simpl.
  assert (Habove : (1 # 2 < c)%Q ->
    map (toItem this) (filter (counted this) (l1 ++ d :: l2)) =
    map (toItem this) (filter (counted this) l1)
    ++ [ {| DetectedItem.item := Detection.class d;
            DetectedItem.category := Some (PPEItem.category entry);
            DetectedItem.confidence := Some c;
            DetectedItem.bbox := Detection.bbox d |} ]
    ++ map (toItem this) (filter (counted this) l2)).
  { intros Hlt. apply gt_iff in Hlt.
    rewrite filter_middle, Hcnt, Hlt, !map_app. simpl.
    unfold toItem at 2. now rewrite Hcat, Hc. }
  assert (Hbelow : (c <= 1 # 2)%Q ->
    filter (counted this) (l1 ++ d :: l2) = filter (counted this) (l1 ++ l2)).
  { intros Hle. apply filter_dropped. rewrite Hcnt. now apply gt_false_iff. }
  split; [split|split].
  - intros Hlt. rewrite (Habove Hlt), filter_app, map_app, !length_app. simpl. lia.
  - intros Hlen. destruct (Qlt_le_dec (1 # 2) c) as [Hlt|Hle]; [exact Hlt|].
    rewrite (Hbelow Hle) in Hlen. lia.
  - intros Hlt. split; [exact (Habove Hlt)|].
    apply fold_add_In. left. rewrite <- Hcat. apply in_map.
    apply filter_In. split; [apply in_elt|].
    rewrite Hcnt. now apply gt_iff.
  - intros Hle. now rewrite (Hbelow Hle).
Qed.

(** C5, at the constructor's service: a helmet at confidence exactly 0.5
    between a person and a vest is left out. *)
Lemma threshold_is_strict_witness :
  let person := Detection.mk (Some "person") (Some (95 # 100)) [100; 50; 200; 400]%Z None in
  let helmet := Detection.mk (Some "helmet") (Some (1 # 2)) [120; 60; 80; 60]%Z None in
  let vest := Detection.mk (Some "safety vest") (Some (92 # 100)) [110; 120; 180; 120]%Z None in
  exists r r0,
    analyzeCompliance constructor [Some person; Some helmet; Some vest] = Js.Returned r /\
    analyzeCompliance constructor [Some person; Some vest] = Js.Returned r0 /\
    Compliance.detectedItems r = Compliance.detectedItems r0 /\
    Compliance.detectedCategories r = Compliance.detectedCategories r0.
Proof.
  intros person helmet vest.
  destruct (threshold_is_strict constructor [person] helmet [vest]
              (PPEItem.mk true "head_protection" ["hard hat"; "safety helmet"])
              (1 # 2) eq_refl eq_refl)
    as (r & r1 & r2 & r0 & Hr & _ & _ & Hr0 & _ & _ & Hbelow).
  exists r, r0. split; [exact Hr|]. split; [exact Hr0|].
  apply Hbelow. discriminate.
Defined.

(* ================================================================== *)
(** ** Detections that are not counted *)

(** A detection the callback does not count leaves the categories, the
    items, the score and the missing categories as they are without it. *)
Lemma uncounted_detection this l1 d l2 :
  counted this d = false ->
  exists r r0,
    analyzeCompliance this (map Some (l1 ++ d :: l2)) = Js.Returned r /\
    analyzeCompliance this (map Some (l1 ++ l2)) = Js.Returned r0 /\
    Compliance.detectedItems r = Compliance.detectedItems r0 /\
    Compliance.detectedCategories r = Compliance.detectedCategories r0 /\
    Compliance.complianceScore r = Compliance.complianceScore r0 /\
    Compliance.missingCategories r = Compliance.missingCategories r0.
Proof.
  intros Hd. do 2 eexists.
  do 2 (split; [apply analyzeCompliance_objects|]).
  unfold checkCompliance; simpl.
  rewrite !loop_items, !loop_categories, (filter_dropped _ l1 d l2 Hd).
  repeat split; reflexivity.
Qed.

(** [o[k]] is [undefined] exactly when [k] is neither an own key of [o]
    nor the name of a member of [Object.prototype]. *)
Lemma get_Undefined {A} (o : list (string * A)) k :
  Js.get o k = Js.Undefined <->
  Js.getOwn o k = None /\ Js.mem k Js.objectPrototype = false.
Proof.
  unfold Js.get. destruct (Js.getOwn o k); [split; [discriminate|intros [? _]; discriminate]|].
  destruct (Js.mem k Js.objectPrototype); split;
    try discriminate; try tauto. intros [_ ?]; discriminate.
Qed.

(** A detection whose label reads as [undefined] in the catalog is
    ignored. *)
Lemma undefined_label_ignored this l1 d l2 :
  Js.get (ppeItems this) (Js.toKey (Detection.class d)) = Js.Undefined ->
  exists r r0,
    analyzeCompliance this (map Some (l1 ++ d :: l2)) = Js.Returned r /\
    analyzeCompliance this (map Some (l1 ++ l2)) = Js.Returned r0 /\
    Compliance.detectedItems r = Compliance.detectedItems r0 /\
    Compliance.detectedCategories r = Compliance.detectedCategories r0 /\
    Compliance.complianceScore r = Compliance.complianceScore r0 /\
    Compliance.missingCategories r = Compliance.missingCategories r0.
Proof.
  intros Hget. apply uncounted_detection.
  unfold counted, catalogEntry. now rewrite Hget.
Qed.

(** C6: the label "constructor" is not a key of the constructor's catalog,
    yet [ppeItems["constructor"]] is the inherited [Object] function, which
    is truthy: a detection so labelled with confidence 0.9 is pushed on
    [detectedItems], adds [undefined] to [detectedCategories] and raises the
    score of the empty input from 0 to 20. *)
Theorem inherited_label_is_counted :
  let d := Detection.mk (Some "constructor") (Some (9 # 10)) [0; 0; 10; 10]%Z None in
  Js.getOwn (ppeItems constructor) "constructor" = None /\
  exists r r0,
    analyzeCompliance constructor [Some d] = Js.Returned r /\
    analyzeCompliance constructor [] = Js.Returned r0 /\
    Compliance.detectedCategories r0 = [] /\
    Compliance.detectedCategories r = [None] /\
    Compliance.complianceScore r0 = 0%Z /\
    Compliance.complianceScore r = 20%Z /\
    Compliance.detectedItems r =
      [DetectedItem.mk (Some "constructor") None (Some (9 # 10)) [0; 0; 10; 10]%Z] /\
    Compliance.missingCategories r = Compliance.missingCategories r0.
Proof.
  split; [reflexivity|].
  do 2 eexists. split; [reflexivity|]. split; [reflexivity|].
  repeat split; reflexivity.
Qed.

(* ================================================================== *)
(** ** Work environments *)

(** A name that is neither a key of [requirements] nor the name of a member
    of [Object.prototype] yields the list of "general". *)
Lemma unknown_environment_is_general name :
  Js.getOwn requirements name = None ->
  Js.mem name Js.objectPrototype = false ->
  getPPERequirements (Some name) = getPPERequirements (Some "general").
Proof.
  intros Hown Hproto. unfold getPPERequirements, Js.or.
  assert (Hget : Js.get requirements name = Js.Undefined)
    by (apply get_Undefined; split; assumption).
  rewrite Hget. reflexivity.
Qed.

(** [getPPERequirements] with no argument takes "construction", whose list
    is that of "general". *)
Lemma absent_environment_is_construction :
  getPPERequirements None = getPPERequirements (Some "construction")
  /\ getPPERequirements None = getPPERequirements (Some "general").
Proof. split; reflexivity. Qed.

(** C7: "not-a-real-profile" yields the list of "general", but the name
    "constructor", which is none of the five environments, does not:
    [requirements["constructor"]] is the inherited [Object] function, which
    is truthy, so the [||] never reaches [requirements.general]. *)
Theorem inherited_name_is_not_general :
  getPPERequirements (Some "not-a-real-profile") = getPPERequirements (Some "general")
  /\ getPPERequirements (Some "general") =
       Js.Own ["head_protection"; "visibility"; "eye_protection";
               "hand_protection"; "foot_protection"]
  /\ Js.getOwn requirements "constructor" = None
  /\ getPPERequirements (Some "constructor") = Js.Inherited "constructor"
  /\ getPPERequirements (Some "constructor") <> getPPERequirements (Some "general").
Proof.
  repeat split; try reflexivity. discriminate.
Qed.

(* ================================================================== *)
(** ** The score *)

Lemma Math_round_ratio (n : nat) (m : nat) :
  Js.Math_round
    (inject_Z (Z.of_nat n) / inject_Z (Z.of_nat (S m)) * 100) =
  ((200 * Z.of_nat n + Z.of_nat (S m)) / (2 * Z.of_nat (S m)))%Z.
Proof.
  change (Z.of_nat (S m)) with (Z.pos (Pos.of_succ_nat m)).
  generalize (Pos.of_succ_nat m) as p, (Z.of_nat n) as a. intros p a.
  unfold Js.Math_round.
  assert (Heq : (inject_Z a / inject_Z (Z.pos p) * 100 + (1 # 2)
                 == (200 * a + Z.pos p) # (2 * p))%Q).
  { unfold Qeq, Qdiv, Qinv, Qmult, Qplus, inject_Z. cbn [Qnum Qden].
    rewrite ?Pos2Z.inj_mul. ring. }
  rewrite (Qfloor_comp _ _ Heq). unfold Qfloor.
  now rewrite Pos2Z.inj_mul.
Qed.

(** The score [analyzeCompliance] computes: one hundred times the size of
    [detectedCategories] over the number of required categories, rounded
    half up; 0 when nothing is required.  Every category in the set counts,
    required or not. *)
Lemma complianceScore_eq this st :
  Compliance.complianceScore (checkCompliance this st) =
  match length (requiredCategories this) with
  | O => 0%Z
  | S m =>
      ((200 * Z.of_nat (length (detectedCategories st)) + Z.of_nat (S m))
       / (2 * Z.of_nat (S m)))%Z
  end.
Proof.
  unfold checkCompliance; simpl.
  destruct (length (requiredCategories this)) as [|m]; [reflexivity|].
  cbn [Nat.ltb Nat.leb]. apply Math_round_ratio.
Qed.

(** C1: on the mock detections without the boots the set of detected
    categories holds "person" besides the four equipment categories, so the
    score is 5/5, that is 100 and not 80, although "foot_protection" is
    missing. *)
Theorem score_counts_person_category :
  exists r,
    analyzeCompliance constructor (map Some (removelast mockDetections)) = Js.Returned r /\
    Compliance.detectedCategories r =
      [Some "person"; Some "head_protection"; Some "visibility";
       Some "hand_protection"; Some "eye_protection"] /\
    Compliance.missingCategories r = ["foot_protection"] /\
    Compliance.complianceScore r = 100%Z /\
    Compliance.complianceScore r <> 80%Z /\
    Compliance.isCompliant r = false.
Proof.
  eexists. split; [reflexivity|].
  repeat split; try reflexivity. discriminate.
Qed.

(** C3: on the six mock detections the set of detected categories has six
    elements for five required ones, and the score is 120. *)
Theorem score_exceeds_100 :
  exists r,
    analyzeCompliance constructor (map Some mockDetections) = Js.Returned r /\
    Compliance.totalDetected r = 6%nat /\
    Compliance.totalRequired r = 5%nat /\
    Compliance.complianceScore r = 120%Z /\
    ~ (0 <= Compliance.complianceScore r <= 100)%Z.
Proof.
  eexists. split; [reflexivity|].
  repeat split; try reflexivity.
  intros [_ H]. vm_compute in H. now apply H.
Qed.

(** C2: [analyzeCompliance] reads [this.requiredCategories], which the
    constructor fixes to the five categories; [getPPERequirements] is not
    consulted.  A person with safety glasses and gloves scores 60 and is
    not compliant, whatever the work environment of the request; and with
    [requiredCategories] set to the laboratory list the same detections
    would score 150. *)
Theorem laboratory_list_is_not_used :
  let detections :=
    [ Detection.mk (Some "person") (Some (95 # 100)) [100; 50; 200; 400]%Z (Some "person");
      Detection.mk (Some "safety glasses") (Some (82 # 100)) [140; 100; 60; 20]%Z (Some "eye_protection");
      Detection.mk (Some "gloves") (Some (75 # 100)) [80; 350; 60; 40]%Z (Some "hand_protection") ] in
  getPPERequirements (Some "laboratory") = Js.Own ["eye_protection"; "hand_protection"] /\
  (exists r,
     analyzeCompliance constructor (map Some detections) = Js.Returned r /\
     Compliance.personDetected r = true /\
     Compliance.missingCategories r =
       ["head_protection"; "visibility"; "foot_protection"] /\
     Compliance.complianceScore r = 60%Z /\
     Compliance.isCompliant r = false) /\
  (exists r,
     analyzeCompliance
       {| ppeItems := ppeItems constructor;
          requiredCategories := ["eye_protection"; "hand_protection"] |}
       (map Some detections) = Js.Returned r /\
     Compliance.missingCategories r = [] /\
     Compliance.complianceScore r = 150%Z /\
     Compliance.isCompliant r = true).
Proof.
  split; [reflexivity|]. split.
  - eexists. split; [reflexivity|]. repeat split; reflexivity.
  - eexists. split; [reflexivity|]. repeat split; reflexivity.
Qed.

(* ================================================================== *)
(** ** Detections with absent or out-of-range fields *)

Lemma counted_detection_In this l1 d l2 :
  counted this d = true ->
  exists r,
    analyzeCompliance this (map Some (l1 ++ d :: l2)) = Js.Returned r /\
    In (toItem this d) (Compliance.detectedItems r) /\
    In (categoryOf this d) (Compliance.detectedCategories r).
Proof.
  intros Hd. eexists. split; [apply analyzeCompliance_objects|].
  unfold checkCompliance; simpl.
  assert (Hin : In d (filter (counted this) (l1 ++ d :: l2)))
    by (apply filter_In; split; [apply in_elt|exact Hd]).
  rewrite loop_items, loop_categories. simpl. split.
  - apply in_map, Hin.
  - apply fold_add_In. left. apply in_map, Hin.
Qed.

Lemma objects_or_nullish (es : list (option Detection.t)) :
  (exists ds, es = map Some ds) \/ In None es.
Proof.
  induction es as [|[d|] es IH].
  - left. now exists [].
  - destruct IH as [[ds ->]|Hin].
    + left. now exists (d :: ds).
    + right. now right.
  - right. now left.
Qed.

(** C8, as the code has it: a detection without label, one without
    confidence, one with confidence 1.5 and one with confidence -0.2 are
    evaluated without any error; the one at 1.5 is counted. *)
Lemma malformed_detections_are_not_rejected :
  let noLabel := Detection.mk None (Some (9 # 10)) [0; 0; 10; 10]%Z None in
  let noConfidence := Detection.mk (Some "helmet") None [120; 60; 80; 60]%Z None in
  let tooLarge := Detection.mk (Some "gloves") (Some (3 # 2)) [80; 350; 60; 40]%Z None in
  let negative := Detection.mk (Some "boots") (Some (-1 # 5)) [130; 420; 80; 60]%Z None in
  let detections := map Some [noLabel; noConfidence; tooLarge; negative] in
  (exists r,
     analyzeCompliance constructor detections = Js.Returned r /\
     Compliance.detectedItems r =
       [DetectedItem.mk (Some "gloves") (Some "hand_protection") (Some (3 # 2))
                        [80; 350; 60; 40]%Z] /\
     Compliance.detectedCategories r = [Some "hand_protection"] /\
     Compliance.complianceScore r = 20%Z)
  /\ ~ (exists e, analyzeCompliance constructor detections = Js.Threw e).
Proof.
  split.
  - eexists. split; [reflexivity|]. repeat split; reflexivity.
  - intros [e He]. discriminate He.
Qed.

(** C8, amended: an array of detection objects is always evaluated to a
    report, whatever fields the objects lack and whatever their
    confidences are.  A detection without confidence, with a negative
    confidence, or without label (when the catalog has no "undefined" key)
    changes neither items, categories, score nor missing categories; a
    detection with a catalog label and a confidence above 1 is counted.
    The call throws, without a report, exactly when an element of the array
    is [null] or [undefined]. *)
Theorem detection_objects_are_never_rejected this :
  (forall ds, exists r, analyzeCompliance this (map Some ds) = Js.Returned r) /\
  (forall l1 d l2,
     Detection.confidence d = None \/
     (exists c, Detection.confidence d = Some c /\ (c < 0)%Q) \/
     (Detection.class d = None /\ Js.get (ppeItems this) "undefined" = Js.Undefined) ->
     exists r r0,
       analyzeCompliance this (map Some (l1 ++ d :: l2)) = Js.Returned r /\
       analyzeCompliance this (map Some (l1 ++ l2)) = Js.Returned r0 /\
       Compliance.detectedItems r = Compliance.detectedItems r0 /\
       Compliance.detectedCategories r = Compliance.detectedCategories r0 /\
       Compliance.complianceScore r = Compliance.complianceScore r0 /\
       Compliance.missingCategories r = Compliance.missingCategories r0) /\
  (forall l1 d l2 entry c,
     Js.get (ppeItems this) (Js.toKey (Detection.class d)) = Js.Own entry ->
     Detection.confidence d = Some c ->
     (1 < c)%Q ->
     exists r,
       analyzeCompliance this (map Some (l1 ++ d :: l2)) = Js.Returned r /\
       In {| DetectedItem.item := Detection.class d;
             DetectedItem.category := Some (PPEItem.category entry);
             DetectedItem.confidence := Some c;
             DetectedItem.bbox := Detection.bbox d |}
          (Compliance.detectedItems r) /\
       In (Some (PPEItem.category entry)) (Compliance.detectedCategories r)) /\
  (forall es,
     (exists e, analyzeCompliance this es = Js.Threw e) <-> In None es).
Proof.
  split; [|split; [|split]].
  - intros ds. eexists. apply analyzeCompliance_objects.
  - intros l1 d l2 Hbad. apply uncounted_detection.
    unfold counted, catalogEntry.
    destruct Hbad as [Hc|[(c & Hc & Hneg)|[Hl Hget]]].
    + rewrite Hc. apply andb_false_r.
    + rewrite Hc. replace (Js.gt (Some c) (1 # 2)) with false; [apply andb_false_r|].
      symmetry. apply gt_false_iff. apply Qlt_le_weak.
      apply Qlt_trans with (y := 0%Q); [exact Hneg|reflexivity].
    + rewrite Hl. simpl Js.toKey. now rewrite Hget.
  - intros l1 d l2 entry c Hget Hc Hlt.
    destruct (counted_known this d entry c Hget Hc) as [Hcnt Hcat].
    assert (Hd : counted this d = true).
    { rewrite Hcnt. apply gt_iff.
      apply Qlt_trans with (y := 1%Q); [reflexivity|exact Hlt]. }
    destruct (counted_detection_In this l1 d l2 Hd) as (r & Hr & Hitem & Hcats).
    exists r. split; [exact Hr|].
    unfold toItem in Hitem. rewrite Hcat, Hc in Hitem. rewrite Hcat in Hcats.
    split; assumption.
  - intros es. split.
    + intros [e He].
      destruct (objects_or_nullish es) as [[ds ->]|Hin]; [|exact Hin].
      rewrite analyzeCompliance_objects in He. discriminate.
    + intros Hin. unfold analyzeCompliance.
      destruct (forEach_nullish this es initial Hin) as [e He].
      exists e. now rewrite He.
Qed.

(** C8, amended, at the constructor's service: a helmet without confidence
    between a person and a vest changes nothing. *)
Lemma detection_objects_are_never_rejected_witness :
  let person := Detection.mk (Some "person") (Some (95 # 100)) [100; 50; 200; 400]%Z None in
  let helmet := Detection.mk (Some "helmet") None [120; 60; 80; 60]%Z None in
  let vest := Detection.mk (Some "safety vest") (Some (92 # 100)) [110; 120; 180; 120]%Z None in
  exists r r0,
    analyzeCompliance constructor [Some person; Some helmet; Some vest] = Js.Returned r /\
    analyzeCompliance constructor [Some person; Some vest] = Js.Returned r0 /\
    Compliance.detectedItems r = Compliance.detectedItems r0 /\
    Compliance.detectedCategories r = Compliance.detectedCategories r0 /\
    Compliance.complianceScore r = Compliance.complianceScore r0 /\
    Compliance.missingCategories r = Compliance.missingCategories r0.
Proof.
  intros person helmet vest.
  destruct (detection_objects_are_never_rejected constructor) as (_ & Hdropped & _).
  apply (Hdropped [person] helmet [vest]). left. reflexivity.
Defined.

(* ================================================================== *)
(** ** Invariants of the report *)

Lemma add_NoDup s x : NoDup s -> NoDup (Js.add optStrEqb s x).
Proof.
  intros Hs. unfold Js.add. destruct (Js.has optStrEqb s x) eqn:E; [exact Hs|].
  apply (Permutation_NoDup (Permutation_cons_append s x)).
  constructor; [|exact Hs].
  intros Hin. apply has_In in Hin. congruence.
Qed.

Lemma fold_add_NoDup l : forall s,
  NoDup s -> NoDup (fold_left (Js.add optStrEqb) l s).
Proof.
  induction l as [|x l IH]; intros s Hs; simpl; [exact Hs|].
  apply IH, add_NoDup, Hs.
Qed.

Lemma fold_add_prefix l : forall s,
  exists extra, fold_left (Js.add optStrEqb) l s = s ++ extra.
Proof.
  induction l as [|x l IH]; intros s; simpl.
  - exists []. now rewrite app_nil_r.
  - destruct (IH (Js.add optStrEqb s x)) as [extra ->].
    unfold Js.add. destruct (Js.has optStrEqb s x).
    + now exists extra.
    + exists (x :: extra). now rewrite <- app_assoc.
Qed.

Lemma loop_categories_In this ds c :
  In c (detectedCategories (fold_left (processDetection this) ds initial)) <->
  exists d, In d ds /\ counted this d = true /\ categoryOf this d = c.
Proof.
  rewrite loop_categories, fold_add_In. simpl. rewrite in_map_iff. split.
  - intros [(d & Hc & Hin)|[]]. apply filter_In in Hin as [Hin Hd]. now exists d.
  - intros (d & Hin & Hd & Hc). left. exists d. split; [exact Hc|].
    apply filter_In. now split.
Qed.

Lemma loop_categories_NoDup this ds :
  NoDup (detectedCategories (fold_left (processDetection this) ds initial)).
Proof.
  rewrite loop_categories. apply fold_add_NoDup. constructor.
Qed.

Lemma counted_iff this d :
  counted this d = true <->
  Js.get (ppeItems this) (Js.toKey (Detection.class d)) <> Js.Undefined /\
  exists c, Detection.confidence d = Some c /\ (1 # 2 < c)%Q.
Proof.
  unfold counted, catalogEntry. rewrite andb_true_iff. split.
  - intros [Ht Hg]. split.
    + intros E. rewrite E in Ht. discriminate.
    + destruct (Detection.confidence d) as [c|]; [|discriminate].
      exists c. split; [reflexivity|now apply gt_iff].
  - intros [Hne (c & Hc & Hlt)]. split.
    + destruct (Js.get _ _); [reflexivity|reflexivity|congruence].
    + rewrite Hc. now apply gt_iff.
Qed.

(** The loop of [analyzeCompliance] is an order-preserving filter: the
    detected items are, in input order and without any deduplication, the
    detections whose label reads as something in the catalog and whose
    confidence is above 0.5; each item carries the label, confidence and
    bounding box of its detection and the category read from the catalog. *)
Theorem detected_items_are_the_counted_detections this ds :
  exists r,
    analyzeCompliance this (map Some ds) = Js.Returned r /\
    Compliance.detectedItems r = map (toItem this) (filter (counted this) ds) /\
    (length (Compliance.detectedItems r) <= length ds)%nat /\
    (forall it, In it (Compliance.detectedItems r) <->
       exists d c,
         In d ds /\
         Js.get (ppeItems this) (Js.toKey (Detection.class d)) <> Js.Undefined /\
         Detection.confidence d = Some c /\ (1 # 2 < c)%Q /\
         it = {| DetectedItem.item := Detection.class d;
                 DetectedItem.category :=
                   Js.field PPEItem.category
                     (Js.get (ppeItems this) (Js.toKey (Detection.class d)));
                 DetectedItem.confidence := Some c;
                 DetectedItem.bbox := Detection.bbox d |}).
Proof.
  eexists. split; [apply analyzeCompliance_objects|].
  unfold checkCompliance; simpl. rewrite loop_items; simpl.
  split; [reflexivity|]. split.
  - rewrite length_map. apply filter_length_le.
  - intros it. rewrite in_map_iff. split.
    + intros (d & <- & Hin). apply filter_In in Hin as [Hin Hd].
      apply counted_iff in Hd as [Hne (c & Hc & Hlt)].
      exists d, c. repeat (split; [assumption|]).
      unfold toItem, categoryOf, catalogEntry. now rewrite Hc.
    + intros (d & c & Hin & Hne & Hc & Hlt & ->).
      exists d. split.
      * unfold toItem, categoryOf, catalogEntry. now rewrite Hc.
      * apply filter_In. split; [exact Hin|].
        apply counted_iff. split; [exact Hne|]. now exists c.
Qed.

Lemma loop_categories_items this ds c :
  In c (detectedCategories (fold_left (processDetection this) ds initial)) <->
  exists it,
    In it (detectedItems (fold_left (processDetection this) ds initial)) /\
    DetectedItem.category it = c.
Proof.
  rewrite loop_categories_In, loop_items. simpl. split.
  - intros (d & Hin & Hd & Hc). exists (toItem this d). split; [|exact Hc].
    apply in_map, filter_In. now split.
  - intros (it & Hin & Hc). apply in_map_iff in Hin as (d & <- & Hin).
    apply filter_In in Hin as [Hin Hd]. now exists d.
Qed.

(** [detectedCategories] holds no category twice, [totalDetected] is its
    length, and it holds exactly the categories of the detected items. *)
Theorem detected_categories_are_those_of_the_items this ds :
  exists r,
    analyzeCompliance this (map Some ds) = Js.Returned r /\
    NoDup (Compliance.detectedCategories r) /\
    Compliance.totalDetected r = length (Compliance.detectedCategories r) /\
    (forall c, In c (Compliance.detectedCategories r) <->
       exists it, In it (Compliance.detectedItems r) /\ DetectedItem.category it = c).
Proof.
  eexists. split; [apply analyzeCompliance_objects|].
  unfold checkCompliance; simpl.
  split; [apply loop_categories_NoDup|]. split; [reflexivity|].
  apply loop_categories_items.
Qed.

Lemma filter_nil_iff {A} (f : A -> bool) l :
  filter f l = [] <-> forall x, In x l -> f x = false.
Proof.
  induction l as [|a l IH]; simpl; [tauto|].
  destruct (f a) eqn:E.
  - split; [discriminate|]. intros H. specialize (H a (or_introl eq_refl)). congruence.
  - rewrite IH. split.
    + intros H x [<-|Hin]; [exact E|now apply H].
    + intros H x Hin. apply H. now right.
Qed.

Lemma has_false_iff s x : Js.has optStrEqb s x = false <-> ~ In x s.
Proof.
  rewrite <- has_In. destruct (Js.has optStrEqb s x); split; congruence.
Qed.

Lemma loop_person_iff this ds :
  personDetected (fold_left (processDetection this) ds initial) = true <->
  exists d, In d ds /\ Detection.class d = Some "person".
Proof.
  rewrite loop_person. simpl. rewrite orb_false_r, existsb_exists.
  split; intros (d & Hin & Hd); exists d; (split; [exact Hin|]).
  - unfold isPerson, Js.strictEq in Hd.
    destruct (Detection.class d) as [s|]; [|discriminate].
    apply String.eqb_eq in Hd. now subst.
  - unfold isPerson. rewrite Hd. reflexivity.
Qed.

(** What the verdict means in terms of the input: a category is missing
    when it is required and no detected item has it; a person is detected
    when some detection is labelled "person", whatever its confidence; and
    the report is compliant exactly when a person is detected and every
    required category is the category of a detected item. *)
Theorem compliant_means_every_required_category_has_an_item this ds :
  exists r,
    analyzeCompliance this (map Some ds) = Js.Returned r /\
    (forall c, In c (Compliance.missingCategories r) <->
       In c (requiredCategories this) /\
       ~ exists it, In it (Compliance.detectedItems r) /\
                    DetectedItem.category it = Some c) /\
    (Compliance.personDetected r = true <->
       exists d, In d ds /\ Detection.class d = Some "person") /\
    (Compliance.isCompliant r = true <->
       (exists d, In d ds /\ Detection.class d = Some "person") /\
       forall c, In c (requiredCategories this) ->
         exists it, In it (Compliance.detectedItems r) /\
                    DetectedItem.category it = Some c).
Proof.
  eexists. split; [apply analyzeCompliance_objects|].
  unfold checkCompliance; simpl.
  pose proof (loop_categories_items this ds) as Hcats.
  pose proof (loop_person_iff this ds) as Hperson.
  revert Hcats Hperson.
  generalize (fold_left (processDetection this) ds initial) as st.
  intros st Hcats Hperson.
  split; [|split].
  - intros c. rewrite filter_In, negb_true_iff, has_false_iff, Hcats. tauto.
  - exact Hperson.
  - rewrite andb_true_iff, Nat.eqb_eq, length_zero_iff_nil, filter_nil_iff, Hperson.
    split; intros [H1 H2]; split.
    + exact H2.
    + intros c Hc. apply Hcats, has_In.
      specialize (H1 c Hc). now apply negb_false_iff in H1.
    + intros c Hc. apply negb_false_iff, has_In, Hcats, H2, Hc.
    + exact H1.
Qed.

(* ================================================================== *)
(** ** The verdict as a function of the set of detections *)

Lemma loop_categories_incl this ds ds' :
  incl ds ds' ->
  incl (detectedCategories (fold_left (processDetection this) ds initial))
       (detectedCategories (fold_left (processDetection this) ds' initial)).
Proof.
  intros Hincl c Hc. apply loop_categories_In in Hc as (d & Hin & Hd & Hcat).
  apply loop_categories_In. exists d. split; [apply Hincl, Hin|now split].
Qed.

Lemma loop_categories_length this ds ds' :
  incl ds ds' ->
  (length (detectedCategories (fold_left (processDetection this) ds initial))
   <= length (detectedCategories (fold_left (processDetection this) ds' initial)))%nat.
Proof.
  intros Hincl. apply NoDup_incl_length;
    [apply loop_categories_NoDup|now apply loop_categories_incl].
Qed.

Lemma score_le this st st' :
  (length (detectedCategories st) <= length (detectedCategories st'))%nat ->
  (Compliance.complianceScore (checkCompliance this st)
   <= Compliance.complianceScore (checkCompliance this st'))%Z.
Proof.
  intros Hle. rewrite !complianceScore_eq.
  destruct (length (requiredCategories this)) as [|m]; [reflexivity|].
  apply Z.div_le_mono; lia.
Qed.

Lemma missing_incl this st st' :
  incl (detectedCategories st) (detectedCategories st') ->
  incl (Compliance.missingCategories (checkCompliance this st'))
       (Compliance.missingCategories (checkCompliance this st)).
Proof.
  intros Hincl c. unfold checkCompliance; simpl.
  rewrite !filter_In, !negb_true_iff, !has_false_iff.
  intros [Hreq Hnot]. split; [exact Hreq|]. intros Hin. apply Hnot, Hincl, Hin.
Qed.

Lemma missing_same this st st' :
  (forall c, In c (detectedCategories st) <-> In c (detectedCategories st')) ->
  Compliance.missingCategories (checkCompliance this st) =
  Compliance.missingCategories (checkCompliance this st').
Proof.
  intros Hsame. unfold checkCompliance; simpl.
  apply filter_ext. intros c. f_equal.
  destruct (Js.has optStrEqb (detectedCategories st) (Some c)) eqn:E.
  - symmetry. apply has_In, Hsame, has_In, E.
  - symmetry. apply has_false_iff. rewrite <- Hsame. now apply has_false_iff.
Qed.

(** Detections only ever help: when every detection of one input also
    occurs in another, the second report detects every category of the
    first, misses no category the first does not miss, scores at least as
    high, and is compliant and has a person whenever the first is and
    has. *)
Theorem more_detections_never_lower_the_verdict this ds ds' :
  incl ds ds' ->
  exists r r',
    analyzeCompliance this (map Some ds) = Js.Returned r /\
    analyzeCompliance this (map Some ds') = Js.Returned r' /\
    incl (Compliance.detectedCategories r) (Compliance.detectedCategories r') /\
    incl (Compliance.missingCategories r') (Compliance.missingCategories r) /\
    (Compliance.complianceScore r <= Compliance.complianceScore r')%Z /\
    (Compliance.personDetected r = true -> Compliance.personDetected r' = true) /\
    (Compliance.isCompliant r = true -> Compliance.isCompliant r' = true).
Proof.
  intros Hincl. do 2 eexists.
  do 2 (split; [apply analyzeCompliance_objects|]).
  pose proof (loop_categories_incl this ds ds' Hincl) as Hcats.
  pose proof (missing_incl this _ _ Hcats) as Hmiss.
  assert (Hperson :
    personDetected (fold_left (processDetection this) ds initial) = true ->
    personDetected (fold_left (processDetection this) ds' initial) = true).
  { rewrite !loop_person_iff. intros (d & Hin & Hd). exists d.
    split; [apply Hincl, Hin|exact Hd]. }
  split; [exact Hcats|]. split; [exact Hmiss|].
  split; [apply score_le, loop_categories_length, Hincl|].
  split; [exact Hperson|].
  revert Hmiss. unfold checkCompliance; simpl.
  rewrite !andb_true_iff, !Nat.eqb_eq, !length_zero_iff_nil.
  intros Hmiss [Hnil Hp]. split; [|now apply Hperson].
  rewrite Hnil in Hmiss.
  destruct (filter _ (requiredCategories this)) as [|c l]; [reflexivity|].
  destruct (Hmiss c (or_introl eq_refl)).
Qed.

(** At the constructor's service: a helmet alone, then with a person and
    boots added in front. *)
Lemma more_detections_never_lower_the_verdict_witness :
  let person := Detection.mk (Some "person") (Some (95 # 100)) [100; 50; 200; 400]%Z None in
  let helmet := Detection.mk (Some "helmet") (Some (88 # 100)) [120; 60; 80; 60]%Z None in
  let boots := Detection.mk (Some "boots") (Some (78 # 100)) [130; 420; 80; 60]%Z None in
  exists r r',
    analyzeCompliance constructor [Some helmet] = Js.Returned r /\
    analyzeCompliance constructor [Some person; Some boots; Some helmet] = Js.Returned r' /\
    (Compliance.complianceScore r <= Compliance.complianceScore r')%Z /\
    incl (Compliance.missingCategories r') (Compliance.missingCategories r).
Proof.
  intros person helmet boots.
  destruct (more_detections_never_lower_the_verdict constructor
              [helmet] [person; boots; helmet])
    as (r & r' & Hr & Hr' & _ & Hmiss & Hscore & _).
  - intros d [<-|[]]. simpl. tauto.
  - exists r, r'. repeat split; assumption.
Defined.

(** The verdict depends on the set of detections only: two inputs with the
    same detections, in any order and with any repetition, get the same
    score, missing categories, person flag, compliance flag and number of
    detected categories, and the same detected categories up to order. *)
Theorem verdict_ignores_order_and_repetition this ds ds' :
  (forall d, In d ds <-> In d ds') ->
  exists r r',
    analyzeCompliance this (map Some ds) = Js.Returned r /\
    analyzeCompliance this (map Some ds') = Js.Returned r' /\
    Compliance.complianceScore r = Compliance.complianceScore r' /\
    Compliance.missingCategories r = Compliance.missingCategories r' /\
    Compliance.personDetected r = Compliance.personDetected r' /\
    Compliance.isCompliant r = Compliance.isCompliant r' /\
    Compliance.totalDetected r = Compliance.totalDetected r' /\
    Permutation (Compliance.detectedCategories r) (Compliance.detectedCategories r').
Proof.
  intros Hsame.
  assert (H1 : incl ds ds') by (intros d; apply Hsame).
  assert (H2 : incl ds' ds) by (intros d; apply Hsame).
  do 2 eexists.
  do 2 (split; [apply analyzeCompliance_objects|]).
  set (st := fold_left (processDetection this) ds initial).
  set (st' := fold_left (processDetection this) ds' initial).
  assert (Hcats : forall c, In c (detectedCategories st) <-> In c (detectedCategories st')).
  { intros c. split; [apply loop_categories_incl, H1|apply loop_categories_incl, H2]. }
  assert (Hlen : length (detectedCategories st) = length (detectedCategories st')).
  { apply Nat.le_antisymm; apply loop_categories_length; assumption. }
  assert (Hp : personDetected st = personDetected st').
  { destruct (personDetected st) eqn:E, (personDetected st') eqn:E'; try reflexivity.
    - apply loop_person_iff in E as (d & Hin & Hd).
      assert (personDetected st' = true)
        by (apply loop_person_iff; exists d; split; [apply H1, Hin|exact Hd]).
      congruence.
    - apply loop_person_iff in E' as (d & Hin & Hd).
      assert (personDetected st = true)
        by (apply loop_person_iff; exists d; split; [apply H2, Hin|exact Hd]).
      congruence. }
  pose proof (missing_same this st st' Hcats) as Hmiss.
  split; [apply Z.le_antisymm; apply score_le; lia|].
  split; [exact Hmiss|]. split; [exact Hp|].
  split; [|split].
  - revert Hmiss. unfold checkCompliance; simpl. intros ->. now rewrite Hp.
  - exact Hlen.
  - apply NoDup_Permutation; [apply loop_categories_NoDup..|exact Hcats].
Qed.

(** At the constructor's service: helmet and person, against person,
    helmet and the helmet again. *)
Lemma verdict_ignores_order_and_repetition_witness :
  let person := Detection.mk (Some "person") (Some (95 # 100)) [100; 50; 200; 400]%Z None in
  let helmet := Detection.mk (Some "helmet") (Some (88 # 100)) [120; 60; 80; 60]%Z None in
  exists r r',
    analyzeCompliance constructor [Some helmet; Some person] = Js.Returned r /\
    analyzeCompliance constructor [Some person; Some helmet; Some helmet] = Js.Returned r' /\
    Compliance.complianceScore r = Compliance.complianceScore r' /\
    Compliance.missingCategories r = Compliance.missingCategories r'.
Proof.
  intros person helmet.
  destruct (verdict_ignores_order_and_repetition constructor
              [helmet; person] [person; helmet; helmet])
    as (r & r' & Hr & Hr' & Hscore & Hmiss & _).
  - intros d. simpl. tauto.
  - exists r, r'. repeat split; assumption.
Defined.

(* ================================================================== *)
(** ** Bounds on the score *)

Lemma getOwn_In {A} (o : list (string * A)) k a :
  Js.getOwn o k = Some a -> In (k, a) o.
Proof.
  induction o as [|[k' a'] o IH]; simpl; [discriminate|].
  destruct (String.eqb k' k) eqn:E.
  - apply String.eqb_eq in E. intros [= ->]. left. now subst.
  - intros H. right. now apply IH.
Qed.

Lemma constructor_categories d :
  In (categoryOf constructor d)
     [ Some "person"; Some "head_protection"; Some "visibility";
       Some "eye_protection"; Some "hand_protection"; Some "foot_protection";
       None ].
Proof.
  unfold categoryOf, catalogEntry, Js.get.
  destruct (Js.getOwn (ppeItems constructor) (Js.toKey (Detection.class d)))
    as [entry|] eqn:E.
  - apply getOwn_In in E. simpl in E.
    repeat (destruct E as [E|E]; [injection E as _ <-; simpl; tauto|]).
    destruct E.
  - destruct (Js.mem _ _); simpl; tauto.
Qed.

(** With the constructor's catalog and requirements the score is twenty
    times the number of detected categories.  That number is at most
    seven (the five equipment categories, "person", and [undefined] for a
    label inherited from [Object.prototype]), so the score lies between 0
    and 140, and 140 is reached. *)
Theorem constructor_score_is_twenty_per_category :
  (forall ds,
     exists r,
       analyzeCompliance constructor (map Some ds) = Js.Returned r /\
       Compliance.complianceScore r = (20 * Z.of_nat (Compliance.totalDetected r))%Z /\
       (Compliance.totalDetected r <= 7)%nat /\
       (0 <= Compliance.complianceScore r <= 140)%Z) /\
  (exists r,
     analyzeCompliance constructor
       (map Some
          (mockDetections ++
           [Detection.mk (Some "toString") (Some (9 # 10)) [0; 0; 10; 10]%Z None]))
     = Js.Returned r /\
     Compliance.complianceScore r = 140%Z).
Proof.
  split.
  - intros ds. eexists. split; [apply analyzeCompliance_objects|].
    set (st := fold_left (processDetection constructor) ds initial).
    change (Compliance.totalDetected (checkCompliance constructor st))
      with (length (detectedCategories st)).
    assert (Hlen : (length (detectedCategories st) <= 7)%nat).
    { change 7%nat with
        (length [ Some "person"; Some "head_protection"; Some "visibility";
                  Some "eye_protection"; Some "hand_protection";
                  Some "foot_protection"; @None string ]).
      apply NoDup_incl_length; [apply loop_categories_NoDup|].
      intros c Hc. apply loop_categories_In in Hc as (d & _ & _ & <-).
      apply constructor_categories. }
    assert (Hscore : Compliance.complianceScore (checkCompliance constructor st)
                     = (20 * Z.of_nat (length (detectedCategories st)))%Z).
    { rewrite complianceScore_eq.
      change (length (requiredCategories constructor)) with 5%nat. cbv iota beta.
      generalize (Z.of_nat (length (detectedCategories st))) as n. intros n.
      change (Z.of_nat 5) with 5%Z.
      replace (200 * n + 5)%Z with (5 + (20 * n) * (2 * 5))%Z by ring.
      rewrite Z.div_add by lia. reflexivity. }
    rewrite Hscore. split; [reflexivity|]. split; [exact Hlen|lia].
  - eexists. split; [reflexivity|reflexivity].
Qed.

Lemma map_Some_NoDup (l : list string) : NoDup l -> NoDup (map Some l).
Proof.
  induction 1 as [|x l Hx Hl IH]; simpl; constructor; [|exact IH].
  rewrite in_map_iff. intros (y & [= ->] & Hin). contradiction.
Qed.

Lemma nothing_missing_length this st :
  NoDup (requiredCategories this) ->
  Compliance.missingCategories (checkCompliance this st) = [] ->
  (length (requiredCategories this) <= length (detectedCategories st))%nat.
Proof.
  intros Hnd Hnil. unfold checkCompliance in Hnil; simpl in Hnil.
  rewrite <- (length_map Some).
  apply NoDup_incl_length; [now apply map_Some_NoDup|].
  intros c Hc. apply in_map_iff in Hc as (x & <- & Hx).
  apply has_In. pose proof (proj1 (filter_nil_iff _ _) Hnil x Hx) as H.
  now apply negb_false_iff in H.
Qed.

(** When [requiredCategories] is not empty and lists no category twice, a
    compliant report scores at least 100. *)
Theorem compliant_report_scores_at_least_100 this ds :
  NoDup (requiredCategories this) ->
  requiredCategories this <> [] ->
  exists r,
    analyzeCompliance this (map Some ds) = Js.Returned r /\
    (Compliance.isCompliant r = true -> (100 <= Compliance.complianceScore r)%Z).
Proof.
  intros Hnd Hne. eexists. split; [apply analyzeCompliance_objects|].
  intros Hc.
  set (st := fold_left (processDetection this) ds initial) in *.
  assert (Hnil : Compliance.missingCategories (checkCompliance this st) = []).
  { unfold checkCompliance in Hc |- *; simpl in Hc |- *.
    apply andb_true_iff in Hc as [Hc _].
    now apply Nat.eqb_eq, length_zero_iff_nil in Hc. }
  pose proof (nothing_missing_length this st Hnd Hnil) as Hlen.
  rewrite complianceScore_eq.
  destruct (requiredCategories this) as [|c l] eqn:E; [congruence|].
  simpl length in *. apply Z.div_le_lower_bound; lia.
Qed.

(** At the constructor's service, on the six mock detections. *)
Lemma compliant_report_scores_at_least_100_witness :
  exists r,
    analyzeCompliance constructor (map Some mockDetections) = Js.Returned r /\
    (100 <= Compliance.complianceScore r)%Z.
Proof.
  destruct (compliant_report_scores_at_least_100 constructor mockDetections)
    as (r & Hr & Hscore).
  - repeat constructor; simpl; intuition discriminate.
  - discriminate.
  - exists r. split; [exact Hr|]. apply Hscore.
    rewrite analyzeCompliance_objects in Hr. injection Hr as <-. reflexivity.
Defined.

(** With an empty [requiredCategories] the score is 0 whatever is
    detected, nothing is missing, and the report is compliant exactly when
    some detection is labelled "person". *)
Theorem empty_requirements_score_zero this ds :
  requiredCategories this = [] ->
  exists r,
    analyzeCompliance this (map Some ds) = Js.Returned r /\
    Compliance.complianceScore r = 0%Z /\
    Compliance.missingCategories r = [] /\
    (Compliance.isCompliant r = true <->
       exists d, In d ds /\ Detection.class d = Some "person").
Proof.
  intros Hreq. eexists. split; [apply analyzeCompliance_objects|].
  rewrite complianceScore_eq. unfold checkCompliance; simpl. rewrite Hreq. simpl.
  repeat split; try reflexivity; apply loop_person_iff.
Qed.

(** At a service with the constructor's catalog and no requirement, on the
    six mock detections. *)
Lemma empty_requirements_score_zero_witness :
  exists r,
    analyzeCompliance {| ppeItems := ppeItems constructor; requiredCategories := [] |}
                      (map Some mockDetections) = Js.Returned r /\
    Compliance.complianceScore r = 0%Z /\
    Compliance.isCompliant r = true.
Proof.
  destruct (empty_requirements_score_zero
              {| ppeItems := ppeItems constructor; requiredCategories := [] |}
              mockDetections eq_refl)
    as (r & Hr & Hscore & _ & Hc).
  exists r. repeat split; try assumption.
  apply Hc. eexists. split; [left; reflexivity|reflexivity].
Defined.




(* ================================================================== *)
(** ** The simulated detector and [analyzeImage] *)

Lemma jitter_bounds c u :
  (0 <= u)%Q -> (u < 1)%Q -> (4 # 10 <= c)%Q -> (c <= 1)%Q ->
  (c - (1 # 10) <= jitter c u)%Q /\ (jitter c u <= 99 # 100)%Q.
Proof.
  intros H0 H1 Hc Hc'. unfold jitter.
  pose proof (Q.max_spec (3 # 10) (Qmin (99 # 100) (c + (u - (1 # 2)) * (2 # 10)))) as HM.
  pose proof (Q.min_spec (99 # 100) (c + (u - (1 # 2)) * (2 # 10))) as Hm.
  revert HM Hm.
  generalize (Qmax (3 # 10) (Qmin (99 # 100) (c + (u - (1 # 2)) * (2 # 10)))) as M.
  generalize (Qmin (99 # 100) (c + (u - (1 # 2)) * (2 # 10))) as m.
  intros m M [[Ha Hb]|[Ha Hb]] [[Hc1 Hd]|[Hc1 Hd]]; split; lra.
Qed.

Lemma mapJitter_spec random (Hrandom : forall n, (0 <= random n)%Q /\ (random n < 1)%Q)
  mocks :
  Forall (fun m => exists c0, Detection.confidence m = Some c0 /\
                              (7 # 10 <= c0)%Q /\ (c0 <= 1)%Q) mocks ->
  forall n,
  Forall2 (fun d m =>
             Detection.class d = Detection.class m /\
             Detection.bbox d = Detection.bbox m /\
             Detection.category d = Detection.category m /\
             exists c, Detection.confidence d = Some c /\
                       (6 # 10 <= c)%Q /\ (c <= 1)%Q)
          (mapJitter random n mocks) mocks.
Proof.
  induction 1 as [|m mocks (c0 & Hc0 & Hlo & Hhi) _ IH]; intros n; simpl;
    constructor; [|apply IH].
  rewrite Hc0. simpl. repeat (split; [reflexivity|]).
  exists (jitter c0 (random n)). split; [reflexivity|].
  destruct (Hrandom n) as [H0 H1].
  destruct (jitter_bounds c0 (random n) H0 H1) as [Ha Hb]; [lra|lra|].
  split; lra.
Qed.

Lemma mockDetections_confidences :
  Forall (fun m => exists c0, Detection.confidence m = Some c0 /\
                              (7 # 10 <= c0)%Q /\ (c0 <= 1)%Q) mockDetections.
Proof.
  unfold mockDetections.
  repeat constructor; simpl; eexists; (split; [reflexivity|split; discriminate]).
Qed.

(** Whatever [Math.random] draws, the simulated detector returns the six
    mock detections with their labels, boxes and categories; only the
    confidences move, and each stays between 0.6 and 1, above the
    threshold of [analyzeCompliance].  The image is not looked at. *)
Theorem simulated_detections_stay_above_the_threshold random imagePath metadata :
  (forall n, (0 <= random n)%Q /\ (random n < 1)%Q) ->
  Forall2 (fun d m =>
             Detection.class d = Detection.class m /\
             Detection.bbox d = Detection.bbox m /\
             Detection.category d = Detection.category m /\
             exists c, Detection.confidence d = Some c /\
                       (6 # 10 <= c)%Q /\ (c <= 1)%Q)
          (simulatePPEDetection random imagePath metadata) mockDetections.
Proof.
  intros Hrandom. unfold simulatePPEDetection.
  apply mapJitter_spec; [exact Hrandom|apply mockDetections_confidences].
Qed.

(** With every draw equal to 0: each confidence is the mock's minus 0.1. *)
Lemma simulated_detections_stay_above_the_threshold_witness :
  Forall2 (fun d m =>
             Detection.class d = Detection.class m /\
             Detection.bbox d = Detection.bbox m /\
             Detection.category d = Detection.category m /\
             exists c, Detection.confidence d = Some c /\
                       (6 # 10 <= c)%Q /\ (c <= 1)%Q)
          (simulatePPEDetection (fun _ => 0%Q) "uploads/image-1.png"
                                (Metadata.mk 640 480 "png"))
          mockDetections.
Proof.
  apply simulated_detections_stay_above_the_threshold.
  intros n. split; [discriminate|reflexivity].
Defined.

Lemma same_labels_same_state this ds ms :
  Forall2 (fun d m => Detection.class d = Detection.class m /\
                      counted this d = counted this m) ds ms ->
  forall st,
    detectedCategories (fold_left (processDetection this) ds st) =
    detectedCategories (fold_left (processDetection this) ms st) /\
    personDetected (fold_left (processDetection this) ds st) =
    personDetected (fold_left (processDetection this) ms st).
Proof.
  intros H st. rewrite !loop_categories, !loop_person.
  assert (Heq : map (categoryOf this) (filter (counted this) ds) =
                map (categoryOf this) (filter (counted this) ms)
                /\ existsb isPerson ds = existsb isPerson ms).
  { induction H as [|d m ds ms [Hcls Hcnt] _ [IH1 IH2]]; [split; reflexivity|].
    simpl. rewrite Hcnt, IH2. unfold isPerson at 1 3. rewrite Hcls. split; [|reflexivity].
    destruct (counted this m); [|exact IH1]. simpl. rewrite IH1.
    unfold categoryOf, catalogEntry. now rewrite Hcls. }
  destruct Heq as [-> ->]. split; reflexivity.
Qed.

Lemma checkCompliance_ext this st st' :
  detectedCategories st = detectedCategories st' ->
  personDetected st = personDetected st' ->
  Compliance.personDetected (checkCompliance this st) =
    Compliance.personDetected (checkCompliance this st') /\
  Compliance.complianceScore (checkCompliance this st) =
    Compliance.complianceScore (checkCompliance this st') /\
  Compliance.isCompliant (checkCompliance this st) =
    Compliance.isCompliant (checkCompliance this st') /\
  Compliance.detectedCategories (checkCompliance this st) =
    Compliance.detectedCategories (checkCompliance this st') /\
  Compliance.missingCategories (checkCompliance this st) =
    Compliance.missingCategories (checkCompliance this st').
Proof.
  intros Hc Hp. unfold checkCompliance; simpl. rewrite Hc, Hp.
  repeat split; reflexivity.
Qed.

Lemma simulated_report random imagePath metadata :
  (forall n, (0 <= random n)%Q /\ (random n < 1)%Q) ->
  exists r,
    analyzeCompliance constructor
      (map Some (simulatePPEDetection random imagePath metadata)) = Js.Returned r /\
    Compliance.personDetected r = true /\
    Compliance.complianceScore r = 120%Z /\
    Compliance.isCompliant r = true /\
    Compliance.detectedCategories r =
      [Some "person"; Some "head_protection"; Some "visibility";
       Some "hand_protection"; Some "eye_protection"; Some "foot_protection"] /\
    Compliance.missingCategories r = [].
Proof.
  intros Hrandom. eexists. split; [apply analyzeCompliance_objects|].
  assert (Hsame : Forall2 (fun d m => Detection.class d = Detection.class m /\
                                      counted constructor d = counted constructor m)
                    (simulatePPEDetection random imagePath metadata) mockDetections).
  { pose proof (mapJitter_spec random Hrandom mockDetections
                  mockDetections_confidences 0) as H.
    unfold simulatePPEDetection.
    assert (Hmock : Forall (fun m => counted constructor m = true) mockDetections)
      by (repeat constructor).
    revert H Hmock. generalize (mapJitter random 0 mockDetections) as ds.
    generalize mockDetections as ms.
    intros ms ds H. induction H as [|d m ds ms (Hcls & _ & _ & c & Hc & Hlo & _) _ IH];
      intros Hmock; constructor.
    - split; [exact Hcls|]. inversion Hmock as [|? ? Hm _]; subst.
      rewrite Hm. apply counted_iff. apply counted_iff in Hm as [Hne _].
      rewrite Hcls. split; [exact Hne|]. exists c. split; [exact Hc|lra].
    - apply IH. now inversion Hmock. }
  destruct (same_labels_same_state constructor _ _ Hsame initial) as [Hc Hp].
  destruct (checkCompliance_ext constructor _ _ Hc Hp) as (-> & -> & -> & -> & ->).
  repeat split; reflexivity.
Qed.

(** [analyzeImage] fails exactly when the file does not exist (with the
    message "Image file not found", whatever the probe would say), when the
    metadata probe rejects, or when [statSync] throws, and then carries
    that error's message; the analysis itself never makes it fail. *)
Theorem analyzeImage_fails_only_on_the_file nativeSource world this imagePath error :
  analyzeImage nativeSource world this imagePath = Failure error <->
  (existsSync world imagePath = false /\ error = "Image file not found") \/
  (existsSync world imagePath = true /\
   sharpMetadata world imagePath = inl error) \/
  (existsSync world imagePath = true /\
   (exists metadata, sharpMetadata world imagePath = inr metadata) /\
   statSyncSize world imagePath = inl error).
Proof.
  unfold analyzeImage.
  destruct (existsSync world imagePath); simpl negb; cbv iota.
  - destruct (sharpMetadata world imagePath) as [message|metadata].
    + split.
      * intros [= ->]. right. left. now split.
      * intros [[H _]|[[_ [= ->]]|[_ [[md H] _]]]]; [discriminate|reflexivity|discriminate].
    + cbv zeta. rewrite analyzeCompliance_objects.
      destruct (statSyncSize world imagePath) as [message|size].
      * split.
        -- intros [= ->]. right. right. split; [reflexivity|]. split; [now exists metadata|reflexivity].
        -- intros [[H _]|[[_ H]|[_ [_ [= ->]]]]]; [discriminate|discriminate|reflexivity].
      * split; [discriminate|].
        intros [[H _]|[[_ H]|[_ [_ H]]]]; discriminate.
  - split.
    + intros [= <-]. left. now split.
    + intros [[_ ->]|[[H _]|[H _]]]; [reflexivity|discriminate|discriminate].
Qed.

(** For every existing image whose probe and [statSync] succeed, whatever
    the image shows and whatever [Math.random] draws, [analyzeImage] of the
    constructor's service succeeds with the image's metadata and size, a
    person detected, nothing missing, a compliant report scoring 120, and
    exactly the success and the general recommendation. *)
Theorem analyzeImage_always_reports_compliance nativeSource world imagePath metadata size :
  (forall n, (0 <= random world n)%Q /\ (random world n < 1)%Q) ->
  existsSync world imagePath = true ->
  sharpMetadata world imagePath = inr metadata ->
  statSyncSize world imagePath = inr size ->
  exists analysis,
    analyzeImage nativeSource world constructor imagePath = Success analysis /\
    Analysis.imageInfo analysis =
      ImageInfo.mk (Metadata.width metadata) (Metadata.height metadata)
                   (Metadata.format metadata) size /\
    Analysis.timestamp analysis = toISOString world /\
    map Detection.class (Analysis.detections analysis) =
      map Detection.class mockDetections /\
    Compliance.personDetected (Analysis.compliance analysis) = true /\
    Compliance.missingCategories (Analysis.compliance analysis) = [] /\
    Compliance.isCompliant (Analysis.compliance analysis) = true /\
    Compliance.complianceScore (Analysis.compliance analysis) = 120%Z /\
    Analysis.recommendations analysis =
      [successRecommendation; generalRecommendation].
Proof.
  intros Hrandom Hex Hmd Hstat.
  destruct (simulated_report (random world) imagePath metadata Hrandom)
    as (r & Hr & Hp & Hscore & Hc & _ & Hmiss).
  unfold analyzeImage. rewrite Hex, Hmd. simpl negb. cbv iota zeta.
  rewrite Hr, Hstat. eexists. split; [reflexivity|]. simpl.
  repeat (split; [reflexivity || assumption|]).
  unfold generateRecommendations. rewrite Hp, Hmiss, Hc. reflexivity.
Qed.

(** A world whose only file is a 640x480 PNG of 1234 bytes and whose
    random generator always draws 0. *)
Lemma analyzeImage_always_reports_compliance_witness :
  let world :=
    {| existsSync := fun p => String.eqb p "uploads/image-1.png";
       sharpMetadata := fun _ => inr (Metadata.mk 640 480 "png");
       statSyncSize := fun _ => inr 1234%Z;
       random := fun _ => 0%Q;
       toISOString := "2024-01-01T00:00:00.000Z" |} in
  exists analysis,
    analyzeImage (fun _ => "") world constructor "uploads/image-1.png" = Success analysis /\
    Compliance.complianceScore (Analysis.compliance analysis) = 120%Z /\
    Analysis.recommendations analysis = [successRecommendation; generalRecommendation].
Proof.
  intros world.
  destruct (analyzeImage_always_reports_compliance (fun _ => "") world
              "uploads/image-1.png" (Metadata.mk 640 480 "png") 1234%Z)
    as (a & Ha & _ & _ & _ & _ & _ & _ & Hscore & Hrecs);
    try reflexivity.
  - intros n. split; [discriminate|reflexivity].
  - exists a. repeat split; assumption.
Defined.

(* ================================================================== *)
(** ** The client's [utils] *)

Lemma lastIndexOf_lower c s : (-1 <= lastIndexOf c s)%Z.
Proof.
  induction s as [|a s IH]; simpl; [lia|].
  destruct (0 <=? lastIndexOf c s)%Z eqn:E; [apply Z.leb_le in E; lia|].
  destruct (Ascii.eqb a c); lia.
Qed.

Lemma lastIndexOf_absent c s :
  ~ In c (list_ascii_of_string s) -> lastIndexOf c s = (-1)%Z.
Proof.
  induction s as [|a s IH]; simpl; [reflexivity|].
  intros Hnot. rewrite IH by tauto. simpl.
  destruct (Ascii.eqb a c) eqn:E; [|reflexivity].
  apply Ascii.eqb_eq in E. tauto.
Qed.

Lemma lastIndexOf_last c base ext :
  ~ In c (list_ascii_of_string ext) ->
  lastIndexOf c (base ++ String c ext) = Z.of_nat (String.length base).
Proof.
  intros Hnot. induction base as [|a base IH].
  - simpl. rewrite (lastIndexOf_absent c ext Hnot). simpl.
    now rewrite Ascii.eqb_refl.
  - cbn [String.append lastIndexOf String.length]. rewrite IH.
    destruct (0 <=? Z.of_nat (String.length base))%Z eqn:E; [lia|].
    apply Z.leb_gt in E. lia.
Qed.

Lemma drop_all s : forall n, (Z.of_nat (String.length s) <= n)%Z -> drop n s = "".
Proof.
  induction s as [|a s IH]; intros n Hn; simpl; [reflexivity|].
  simpl String.length in Hn.
  destruct (0 <? n)%Z eqn:E; [apply IH; lia|].
  apply Z.ltb_ge in E. lia.
Qed.

Lemma drop_past base c ext :
  drop (Z.of_nat (String.length base) + 1) (base ++ String c ext) = ext.
Proof.
  induction base as [|a base IH].
  - simpl. destruct ext; reflexivity.
  - cbn [String.append String.length drop].
    destruct (0 <? Z.of_nat (S (String.length base)) + 1)%Z eqn:E;
      [|apply Z.ltb_ge in E; lia].
    replace (Z.of_nat (S (String.length base)) + 1 - 1)%Z
      with (Z.of_nat (String.length base) + 1)%Z by lia.
    apply IH.
Qed.

(** [getFileExtension] on names shorter than 2^32 characters: a name
    without a dot has the empty extension, and so has a name whose only dot
    is its first character; otherwise the extension is what follows the
    last dot.  (The unsigned shift turns the indices -1 and 0 of the dot
    into starts beyond the end of the name.) *)
Theorem getFileExtension_is_the_text_after_the_last_dot :
  (forall filename,
     (Z.of_nat (String.length filename) <= 2 ^ 32)%Z ->
     ~ In "."%char (list_ascii_of_string filename) ->
     getFileExtension filename = "") /\
  (forall ext,
     (Z.of_nat (String.length ext) < 2 ^ 32)%Z ->
     ~ In "."%char (list_ascii_of_string ext) ->
     getFileExtension (String "." ext) = "") /\
  (forall base ext,
     base <> "" ->
     (Z.of_nat (String.length base) <= 2 ^ 32)%Z ->
     ~ In "."%char (list_ascii_of_string ext) ->
     getFileExtension (base ++ String "." ext) = ext).
Proof.
  unfold getFileExtension, slice, toUint32. split; [|split].
  - intros filename Hlen Hnot. rewrite (lastIndexOf_absent _ _ Hnot).
    change (((-1 - 1) mod 2 ^ 32 + 2)%Z) with (2 ^ 32)%Z.
    change (2 ^ 32 <? 0)%Z with false. cbv iota. now apply drop_all.
  - intros ext Hlen Hnot.
    pose proof (lastIndexOf_last "." "" ext Hnot) as Hlast.
    change ("" ++ String "." ext)%string with (String "." ext) in Hlast.
    rewrite Hlast. simpl String.length.
    change (((Z.of_nat 0 - 1) mod 2 ^ 32 + 2)%Z) with (2 ^ 32 + 1)%Z.
    change (2 ^ 32 + 1 <? 0)%Z with false. cbv iota.
    apply drop_all. simpl String.length. lia.
  - intros base ext Hne Hlen Hnot.
    rewrite (lastIndexOf_last "." base ext Hnot).
    assert (Hpos : (1 <= Z.of_nat (String.length base))%Z)
      by (destruct base; [congruence|simpl String.length; lia]).
    rewrite Z.mod_small by lia.
    destruct (Z.of_nat (String.length base) - 1 + 2 <? 0)%Z eqn:E;
      [apply Z.ltb_lt in E; lia|].
    replace (Z.of_nat (String.length base) - 1 + 2)%Z
      with (Z.of_nat (String.length base) + 1)%Z by lia.
    apply drop_past.
Qed.

(** On "photo.final.png". *)
Lemma getFileExtension_is_the_text_after_the_last_dot_witness :
  getFileExtension "photo.final.png" = "png".
Proof.
  destruct getFileExtension_is_the_text_after_the_last_dot as (_ & _ & H).
  apply (H "photo.final" "png").
  - discriminate.
  - vm_compute. discriminate.
  - simpl. intuition discriminate.
Defined.

Lemma includes_In xs x :
  includes xs x = true <-> exists t, x = Some t /\ In t xs.
Proof.
  unfold includes. rewrite existsb_exists. split.
  - intros (y & Hin & Heq). destruct x as [t|]; [|discriminate].
    apply String.eqb_eq in Heq. subst y. now exists t.
  - intros (t & -> & Hin). exists t. split; [exact Hin|apply String.eqb_refl].
Qed.

(** [validateImageFile] returns [true] exactly for a file of one of the
    four image types that is at most 10 MB (10485760 bytes, the bound
    included) and never returns [false]: any other file makes it throw,
    and a wrong type is reported before a wrong size.  What it accepts,
    the upload route's [fileFilter] accepts too, and [fileFilter] accepts
    exactly the same four types. *)
Theorem validateImageFile_accepts_small_images file :
  let allowedTypes := ["image/jpeg"; "image/jpg"; "image/png"; "image/webp"] in
  (validateImageFile file = Normal true <->
     (exists t, File.type file = Some t /\ In t allowedTypes) /\
     (File.size file <= 10485760)%Z) /\
  validateImageFile file <> Normal false /\
  ((~ exists t, File.type file = Some t /\ In t allowedTypes) ->
     validateImageFile file =
       ThrowError "Invalid file type. Please upload a JPEG, PNG, or WebP image.") /\
  (fst (fileFilter (File.type file)) = None /\ snd (fileFilter (File.type file)) = true <->
     exists t, File.type file = Some t /\ In t allowedTypes) /\
  (validateImageFile file = Normal true -> fileFilter (File.type file) = (None, true)).
Proof.
  intros allowedTypes. unfold validateImageFile, fileFilter.
  fold allowedTypes. change (10 * 1024 * 1024)%Z with 10485760%Z.
  pose proof (includes_In allowedTypes (File.type file)) as Hinc.
  destruct (includes allowedTypes (File.type file)) eqn:E; simpl negb; cbv iota.
  - assert (Hty : exists t, File.type file = Some t /\ In t allowedTypes)
      by now apply Hinc.
    destruct (10485760 <? File.size file)%Z eqn:Es.
    + apply Z.ltb_lt in Es. repeat split; try discriminate; try tauto.
      intros [_ H]. lia.
    + apply Z.ltb_ge in Es. repeat split; try discriminate; try tauto.
  - assert (Hty : ~ exists t, File.type file = Some t /\ In t allowedTypes).
    { intros H. apply Hinc in H. discriminate. }
    repeat split; try discriminate; try tauto.
Qed.

(** On a PNG of exactly 10 MB. *)
Lemma validateImageFile_accepts_small_images_witness :
  validateImageFile (File.mk (Some "image/png") 10485760) = Normal true.
Proof.
  apply (validateImageFile_accepts_small_images (File.mk (Some "image/png") 10485760)).
  split; [|simpl; lia].
  exists "image/png". simpl. tauto.
Defined.

(* ================================================================== *)
(** ** Recommendations of an analysis, and how the client shows them *)

Lemma generateRecommendations_eq nativeSource compliance :
  generateRecommendations nativeSource compliance =
    (if Compliance.personDetected compliance then [] else [noPersonRecommendation]) ++
    map (missingRecommendation nativeSource) (Compliance.missingCategories compliance) ++
    (if Compliance.isCompliant compliance then [successRecommendation] else []) ++
    [generalRecommendation].
Proof.
  unfold generateRecommendations.
  destruct (Compliance.missingCategories compliance) as [|m ms].
  - unfold push. simpl.
    destruct (Compliance.personDetected compliance),
             (Compliance.isCompliant compliance); reflexivity.
  - cbn [length Nat.ltb Nat.leb]. rewrite push_fold. unfold push.
    destruct (Compliance.personDetected compliance),
             (Compliance.isCompliant compliance);
      simpl negb; cbv iota; rewrite <- ?app_assoc; reflexivity.
Qed.


(** The recommendations generated from an analysis always have at least
    two entries.  For a compliant report they are exactly the success and
    the general message; for any other report the success message is
    absent and an error or a warning of high priority is present. *)
Theorem recommendations_of_an_analysis nativeSource this ds :
  exists r,
    analyzeCompliance this (map Some ds) = Js.Returned r /\
    (2 <= length (generateRecommendations nativeSource r))%nat /\
    (Compliance.isCompliant r = true ->
       generateRecommendations nativeSource r =
         [successRecommendation; generalRecommendation]) /\
    (Compliance.isCompliant r = false ->
       ~ In successRecommendation (generateRecommendations nativeSource r) /\
       exists rec,
         In rec (generateRecommendations nativeSource r) /\
         Recommendation.priority rec = "high" /\
         (Recommendation.type rec = "error" \/ Recommendation.type rec = "warning")).
Proof.
  eexists. split; [apply analyzeCompliance_objects|].
  rewrite generateRecommendations_eq. unfold checkCompliance; simpl.
  generalize (personDetected (fold_left (processDetection this) ds initial)) as person.
  generalize (filter
                (fun category =>
                   negb (Js.has optStrEqb
                           (detectedCategories (fold_left (processDetection this) ds initial))
                           (Some category)))
                (requiredCategories this)) as missing.
  intros missing person.
  destruct missing as [|m ms], person; simpl.
  - split; [lia|]. split; [reflexivity|discriminate].
  - split; [lia|]. split; [discriminate|]. intros _. split.
    + intros [H|[H|[]]]; discriminate.
    + exists noPersonRecommendation. simpl. tauto.
  - split; [rewrite length_app; simpl; lia|]. split; [discriminate|]. intros _. split.
    + intros [H|H]; [discriminate|].
      apply in_app_iff in H as [H|[H|[]]]; [|discriminate].
      apply in_map_iff in H as (c & H & _). discriminate.
    + exists (missingRecommendation nativeSource m). simpl. tauto.
  - split; [lia|]. split; [discriminate|]. intros _. split.
    + intros [H|[H|H]]; [discriminate|discriminate|].
      apply in_app_iff in H as [H|[H|[]]]; [|discriminate].
      apply in_map_iff in H as (c & H & _). discriminate.
    + exists noPersonRecommendation. simpl. tauto.
Qed.



Lemma compliant_score_ge_100 this st :
  NoDup (requiredCategories this) ->
  requiredCategories this <> [] ->
  Compliance.isCompliant (checkCompliance this st) = true ->
  (100 <= Compliance.complianceScore (checkCompliance this st))%Z.
Proof.
  intros Hnd Hne Hc.
  assert (Hnil : Compliance.missingCategories (checkCompliance this st) = []).
  { unfold checkCompliance in Hc |- *; simpl in Hc |- *.
    apply andb_true_iff in Hc as [Hc _].
    now apply Nat.eqb_eq, length_zero_iff_nil in Hc. }
  pose proof (nothing_missing_length this st Hnd Hnil) as Hlen.
  rewrite complianceScore_eq.
  destruct (requiredCategories this) as [|c l] eqn:E; [congruence|].
  simpl length in *. apply Z.div_le_lower_bound; lia.
Qed.

(** The score badge of the upload component: colour and text change
    together at 80 and at 60, and a compliant report of the constructor's
    service is always shown green and "Excellent". *)
Theorem compliance_badge_follows_the_score :
  (forall score : Z,
     ((80 <= score)%Z /\
      getComplianceText score = "Excellent" /\ getComplianceColor score = "#10B981") \/
     ((60 <= score < 80)%Z /\
      getComplianceText score = "Good" /\ getComplianceColor score = "#F59E0B") \/
     ((score < 60)%Z /\
      getComplianceText score = "Needs Improvement" /\
      getComplianceColor score = "#EF4444")) /\
  (forall ds,
     exists r,
       analyzeCompliance constructor (map Some ds) = Js.Returned r /\
       (Compliance.isCompliant r = true ->
          getComplianceText (Compliance.complianceScore r) = "Excellent" /\
          getComplianceColor (Compliance.complianceScore r) = "#10B981")).
Proof.
  split.
  - intros score. unfold getComplianceText, getComplianceColor.
    destruct (80 <=? score)%Z eqn:E80.
    + apply Z.leb_le in E80. left. tauto.
    + apply Z.leb_gt in E80. destruct (60 <=? score)%Z eqn:E60.
      * apply Z.leb_le in E60. right. left. repeat split; try reflexivity; lia.
      * apply Z.leb_gt in E60. right. right. tauto.
  - intros ds. eexists. split; [apply analyzeCompliance_objects|].
    intros Hc. apply compliant_score_ge_100 in Hc.
    + unfold getComplianceText, getComplianceColor.
      destruct (80 <=? _)%Z eqn:E; [split; reflexivity|].
      apply Z.leb_gt in E. lia.
    + repeat constructor; simpl; intuition discriminate.
    + discriminate.
Qed.

(** [getPPERequirements] never returns [undefined].  When it returns a
    list, the list is not empty, names no category twice and names only
    categories the constructor requires; and every work environment the
    client offers is a key of the table, in the table's order, so none of
    them reaches the fallback. *)
Theorem getPPERequirements_lists_are_well_formed :
  (forall name, getPPERequirements name <> Js.Undefined) /\
  (forall name l,
     getPPERequirements name = Js.Own l ->
     l <> [] /\ NoDup l /\ incl l (requiredCategories constructor)) /\
  map WorkEnvironment.value getWorkEnvironments = map fst requirements /\
  (forall environment,
     In environment getWorkEnvironments ->
     exists l,
       Js.getOwn requirements (WorkEnvironment.value environment) = Some l /\
       getPPERequirements (Some (WorkEnvironment.value environment)) = Js.Own l).
Proof.
  assert (Hown : forall k l, Js.getOwn requirements k = Some l ->
                 l <> [] /\ NoDup l /\ incl l (requiredCategories constructor)).
  { intros k l H. apply getOwn_In in H. simpl in H.
    repeat (destruct H as [H|H];
            [injection H as _ <-;
             split; [discriminate|];
             split; [repeat constructor; simpl; intuition discriminate|];
             intros c Hc; simpl in *; tauto|]).
    destruct H. }
  split; [|split; [|split]].
  - intros name. unfold getPPERequirements, Js.or, Js.get.
    destruct (Js.getOwn requirements _); [discriminate|].
    destruct (Js.mem _ _); discriminate.
  - intros name l. unfold getPPERequirements, Js.or, Js.get.
    destruct (Js.getOwn requirements _) as [l'|] eqn:E.
    + simpl. intros [= <-]. exact (Hown _ _ E).
    + destruct (Js.mem _ _); [discriminate|]. simpl. intros [= <-].
      apply (Hown "general"). reflexivity.
  - reflexivity.
  - intros environment Hin. simpl in Hin.
    repeat (destruct Hin as [<-|Hin]; [eexists; split; reflexivity|]).
    destruct Hin.
Qed.

(** Every category a requirement list can name has a warning text and a
    colour of its own: the warning generated for it is one of five fixed
    sentences, whatever the engine prints for inherited members, and its
    colour is not the grey fallback. *)
Theorem required_categories_have_texts_and_colours nativeSource name l category :
  getPPERequirements name = Js.Own l ->
  In category l ->
  In (Recommendation.message (missingRecommendation nativeSource category))
     [ "Missing head protection: Wear a safety helmet or hard hat";
       "Missing visibility: Wear a high-visibility safety vest";
       "Missing eye protection: Wear safety glasses or protective eyewear";
       "Missing hand protection: Wear safety gloves";
       "Missing foot protection: Wear safety boots or work boots" ] /\
  exists colour,
    getCategoryColor (Some category) = Js.Own colour /\ colour <> "#6B7280".
Proof.
  intros Hl Hin.
  assert (Hreq : In category (requiredCategories constructor)).
  { revert Hl. unfold getPPERequirements, Js.or, Js.get.
    destruct (Js.getOwn requirements _) as [l'|] eqn:E.
    - simpl. intros [= <-]. apply getOwn_In in E. simpl in E.
      repeat (destruct E as [E|E]; [injection E as _ <-; simpl in *; tauto|]).
      destruct E.
    - destruct (Js.mem _ _); [discriminate|]. simpl. intros [= <-].
      simpl in *. tauto. }
  simpl in Hreq.
  repeat (destruct Hreq as [<-|Hreq];
          [split; [simpl; tauto|eexists; split; [reflexivity|discriminate]]|]).
  destruct Hreq.
Qed.

(** For the laboratory list and eye protection. *)
Lemma required_categories_have_texts_and_colours_witness :
  In (Recommendation.message (missingRecommendation (fun _ => "") "eye_protection"))
     [ "Missing head protection: Wear a safety helmet or hard hat";
       "Missing visibility: Wear a high-visibility safety vest";
       "Missing eye protection: Wear safety glasses or protective eyewear";
       "Missing hand protection: Wear safety gloves";
       "Missing foot protection: Wear safety boots or work boots" ] /\
  exists colour,
    getCategoryColor (Some "eye_protection") = Js.Own colour /\ colour <> "#6B7280".
Proof.
  exact (required_categories_have_texts_and_colours (fun _ => "")
           (Some "laboratory") ["eye_protection"; "hand_protection"]
           "eye_protection" eq_refl (or_introl eq_refl)).
Defined.

(* ================================================================== *)
(** ** [cleanupOldFiles] *)















